(** * Verification of kitsune/users/auth.py (authentication backends)

    Shallow embedding of the authentication backends of kitsune:
    - the token login backend and its encoder [get_auth_str], over
      Python 2 byte strings ([string]) and the base64 codec of
      Python 2's binascii module;
    - the two path-disambiguated OIDC backends;
    - the Firefox Accounts backend hooks, in a small state and exception
      monad over the ORM tables, the session, the flash messages and
      the log. *)

From Stdlib Require Import ZArith Ascii String List Bool Lia.
Import ListNotations.
Open Scope string_scope.
Open Scope list_scope.
Open Scope Z_scope.

(** ** Python results: a value or a raised exception *)

Inductive exn :=
| TypeError
| ValueError
| AttributeError
| DoesNotExist
| MultipleObjectsReturned
| RelatedObjectDoesNotExist
| IntegrityError.

Inductive result (A : Type) :=
| Ok (a : A)
| Raise (e : exn).
Arguments Ok {A} a.
Arguments Raise {A} e.

(** ** Bytes *)

Definition code (c : ascii) : Z := Z.of_nat (nat_of_ascii c).
Definition chr (z : Z) : ascii := ascii_of_nat (Z.to_nat z).

(** ** base64 (Python 2 [base64.b64encode] / [base64.b64decode]) *)
Module Base64.

Definition alphabet : string :=
  "ABCDEFGHIJKLMNOPQRSTUVWXYZabcdefghijklmnopqrstuvwxyz0123456789+/".

(** [table_b2a_base64] *)
Definition table_b2a (v : Z) : ascii :=
  match String.get (Z.to_nat v) alphabet with
  | Some c => c
  | None => "="%char
  end.

(** [table_a2b_base64] of binascii: -1 marks an invalid character; the
    pad character '=' is mapped to 0 ("Note PAD->0"). *)
Definition table_a2b (n : Z) : Z :=
  if (65 <=? n) && (n <=? 90) then n - 65
  else if (97 <=? n) && (n <=? 122) then n - 71
  else if (48 <=? n) && (n <=? 57) then n + 4
  else if n =? 43 then 62
  else if n =? 47 then 63
  else if n =? 61 then 0
  else -1.

Definition PAD : Z := 61.

(** Encoding of one group of three, two or one bytes (RFC 4648, as
    [binascii.b2a_base64], whose trailing newline [b64encode] strips). *)
Definition enc3 (a b c : ascii) : string :=
  let x := code a in let y := code b in let z := code c in
  String (table_b2a (Z.shiftr x 2))
  (String (table_b2a (Z.lor (Z.shiftl (Z.land x 3) 4) (Z.shiftr y 4)))
  (String (table_b2a (Z.lor (Z.shiftl (Z.land y 15) 2) (Z.shiftr z 6)))
  (String (table_b2a (Z.land z 63)) EmptyString))).

Definition enc2 (a b : ascii) : string :=
  let x := code a in let y := code b in
  String (table_b2a (Z.shiftr x 2))
  (String (table_b2a (Z.lor (Z.shiftl (Z.land x 3) 4) (Z.shiftr y 4)))
  (String (table_b2a (Z.shiftl (Z.land y 15) 2))
  (String "="%char EmptyString))).

Definition enc1 (a : ascii) : string :=
  let x := code a in
  String (table_b2a (Z.shiftr x 2))
  (String (table_b2a (Z.shiftl (Z.land x 3) 4))
  (String "="%char (String "="%char EmptyString))).

Fixpoint b64encode (s : string) : string :=
  match s with
  | String a (String b (String c rest)) => enc3 a b c ++ b64encode rest
  | String a (String b EmptyString) => enc2 a b
  | String a EmptyString => enc1 a
  | EmptyString => EmptyString
  end.

(** [binascii_find_valid]: the [num]+1-th valid base64 character (the pad
    included), or -1. *)
Fixpoint find_valid (s : string) (num : Z) : Z :=
  match s with
  | EmptyString => -1
  | String c rest =>
      let n := code c in
      if (n <=? 127) && negb (table_a2b (Z.land n 127) =? -1) then
        if num =? 0 then n else find_valid rest (num - 1)
      else find_valid rest num
  end.

(** The loop of [binascii_a2b_base64]: returns the final [leftbits] and
    the bytes produced. A pad sequence ends the input ([leftbits = 0];
    break). *)
Fixpoint a2b_loop (s : string) (quad_pos leftchar leftbits : Z)
  : Z * string :=
  match s with
  | EmptyString => (leftbits, EmptyString)
  | String c rest =>
      let n := code c in
      if (127 <? n) || (n =? 13) || (n =? 10) || (n =? 32) then
        a2b_loop rest quad_pos leftchar leftbits
      else if n =? PAD then
        if (quad_pos <? 2) ||
           ((quad_pos =? 2) && negb (find_valid s 1 =? PAD)) then
          a2b_loop rest quad_pos leftchar leftbits
        else (0, EmptyString)
      else
        let this_ch := table_a2b n in
        if this_ch =? -1 then a2b_loop rest quad_pos leftchar leftbits
        else
          let quad_pos' := Z.land (quad_pos + 1) 3 in
          let leftchar' := Z.lor (Z.shiftl leftchar 6) this_ch in
          let leftbits' := leftbits + 6 in
          if 8 <=? leftbits' then
            let leftbits'' := leftbits' - 8 in
            let byte := chr (Z.land (Z.shiftr leftchar' leftbits'') 255) in
            let leftchar'' := Z.land leftchar' (Z.shiftl 1 leftbits'' - 1) in
            let (lb, out) := a2b_loop rest quad_pos' leftchar'' leftbits'' in
            (lb, String byte out)
          else a2b_loop rest quad_pos' leftchar' leftbits'
  end.

(** [base64.b64decode]: "Incorrect padding" (a [binascii.Error]) is
    re-raised as [TypeError]. *)
Definition b64decode (s : string) : result string :=
  let (leftbits, out) := a2b_loop s 0 0 0 in
  if leftbits =? 0 then Ok out else Raise TypeError.

End Base64.

(** ** Python 2 [str] helpers *)

(** [c in s] *)
Fixpoint contains (c : ascii) (s : string) : bool :=
  match s with
  | EmptyString => false
  | String d rest => Ascii.eqb c d || contains c rest
  end.

(** [s.split(sep)] for a one-character separator *)
Fixpoint py_split (sep : ascii) (s : string) : list string :=
  match s with
  | EmptyString => [EmptyString]
  | String c rest =>
      if Ascii.eqb c sep then EmptyString :: py_split sep rest
      else match py_split sep rest with
           | [] => [String c EmptyString]
           | x :: xs => String c x :: xs
           end
  end.

(** ** Users *)

Record User := mkUser {
  user_id : nat;
  username : string;
  email : string;
  password : string;
  last_login : option nat;  (* seconds *)
  is_staff : bool
}.

(** [User.objects.get(username=name)] *)
Definition get_by_username (users : list User) (name : string) : result User :=
  match filter (fun u => String.eqb (username u) name) users with
  | [] => Raise DoesNotExist
  | [u] => Ok u
  | _ => Raise MultipleObjectsReturned
  end.

(** The state [default_token_generator] binds its tokens to. *)
Definition user_state (u : User) : nat * string * option nat :=
  (user_id u, password u, last_login u).

Section TokenLogin.

(** [default_token_generator.make_token] and [.check_token] *)
Variable make_token : User -> string.
Variable check_token : User -> string -> bool.

(** [TokenLoginBackend.authenticate] *)
Definition token_authenticate (users : list User) (auth : string)
  : result (option User) :=
  match Base64.b64decode auth with
  | Raise TypeError => Ok None
  | Raise e => Raise e
  | Ok decoded =>
      if negb (contains ":"%char decoded) then Ok None
      else match py_split ":"%char decoded with
           | [name; token] =>
               match get_by_username users name with
               | Raise DoesNotExist => Ok None
               | Raise e => Raise e
               | Ok user => if check_token user token then Ok (Some user) else Ok None
               end
           | _ => Raise ValueError
           end
  end.

(** [get_auth_str] *)
Definition get_auth_str (user : User) : string :=
  Base64.b64encode (username user ++ ":" ++ make_token user).

End TokenLogin.

(** [User.objects.get(pk=user_id)] *)
Definition get_by_pk (users : list User) (id : nat) : result User :=
  match filter (fun u => Nat.eqb (user_id u) id) users with
  | [] => Raise DoesNotExist
  | [u] => Ok u
  | _ => Raise MultipleObjectsReturned
  end.

(** The value [TokenLoginBackend.get_user] stores in [user.backend]. *)
Definition token_backend_path : string := "kitsune.users.auth.TokenLoginMiddleware".

(** [TokenLoginBackend.get_user]: the user with its [backend] attribute. *)
Definition token_get_user (users : list User) (user_id : nat)
  : result (option (User * string)) :=
  match get_by_pk users user_id with
  | Ok user => Ok (Some (user, token_backend_path))
  | Raise DoesNotExist => Ok None
  | Raise e => Raise e
  end.

(** A concrete token generator satisfying the contract of
    [default_token_generator] (tokens bound to id, password and last
    login, free of ':'), used to instantiate the theorems below. Its
    token is an injective, prefix-free encoding of that state. *)
Module SampleTokens.
Local Open Scope string_scope.

Fixpoint enc_nat (n : nat) : string :=
  match n with
  | O => "0"
  | S k => String "1" (enc_nat k)
  end.

Fixpoint enc_str (s : string) : string :=
  match s with
  | EmptyString => "2"
  | String c r => enc_nat (nat_of_ascii c) ++ enc_str r
  end.

Definition enc_opt (o : option nat) : string :=
  match o with
  | None => "3"
  | Some n => String "4" (enc_nat n)
  end.

Definition make_token (u : User) : string :=
  enc_nat (user_id u) ++ enc_str (password u) ++ enc_opt (last_login u).

Definition check_token (u : User) (t : string) : bool :=
  String.eqb t (make_token u).

End SampleTokens.

(** A sample stored user. *)
Definition sample_user : User :=
  mkUser 7 "alice" "alice@example.com" "pbkdf2_sha256$h1" (Some 1000%nat) false.

(** ** Requests and the two path-disambiguated OIDC backends *)

(** [request.user]: Django's [AnonymousUser] or a logged-in user. *)
Inductive ReqUser :=
| AnonymousUser
| AuthenticatedUser (u : User).

Definition is_authenticated (ru : ReqUser) : bool :=
  match ru with
  | AnonymousUser => false
  | AuthenticatedUser _ => true
  end.

(** The request object; a Django request object is always truthy, so
    [None] stands for Python's [None]. *)
Record Request := mkRequest {
  path : string;
  req_user : ReqUser;
  req_language_code : string   (* request.LANGUAGE_CODE *)
}.

Section Dispatch.

(** [django_reverse('oidc_authentication_callback')] *)
Variable oidc_callback_path : string.

(** [SumoOIDCAuthBackend.authenticate]; [super_authenticate] is the
    base class [OIDCAuthenticationBackend.authenticate]. *)
Definition sumo_authenticate
    (super_authenticate : option Request -> option User)
    (request : option Request) : option User :=
  match request with
  | Some r =>
      if negb (String.eqb (path r) oidc_callback_path) then None
      else super_authenticate request
  | None => super_authenticate request
  end.

(** [FXAAuthBackend.authenticate] *)
Definition fxa_authenticate
    (super_authenticate : option Request -> option User)
    (request : option Request) : option User :=
  match request with
  | Some r =>
      if String.eqb (path r) oidc_callback_path then None
      else super_authenticate request
  | None => super_authenticate request
  end.

(** A backend proceeds on a request when it hands it to the base flow
    whatever that flow does; it declines when it returns [None]
    whatever that flow does. *)
Definition proceeds
    (backend : (option Request -> option User) -> option Request -> option User)
    (request : option Request) : Prop :=
  forall super_authenticate, backend super_authenticate request = super_authenticate request.

Definition declines
    (backend : (option Request -> option User) -> option Request -> option User)
    (request : option Request) : Prop :=
  forall super_authenticate, backend super_authenticate request = None.

End Dispatch.

(** ** The data the Firefox Accounts backend reads and writes *)

(** [kitsune.users.models.Profile]; one-to-one with [User], keyed by
    [prof_user]. *)
Record Profile := mkProfile {
  prof_user : nat;
  is_fxa_migrated : bool;
  fxa_uid : option string;
  fxa_avatar : string;
  name : string;
  locale : string
}.

(** [kitsune.products.models.Product] *)
Record Product := mkProduct {
  product_id : nat;
  codename : string
}.

(** The ORM tables: users, profiles, products, the [Profile.products]
    many-to-many table (profile key, product id) and group membership
    (user id, group name). *)
Record DB := mkDB {
  db_users : list User;
  db_profiles : list Profile;
  db_products : list Product;
  db_profile_products : list (nat * nat);
  db_groups : list (nat * string)
}.

(** The keys of [request.session] this code uses. *)
Record Session := mkSession {
  oidc_login_next : option string;
  is_contributor : option bool
}.

Inductive level := Info | Warning | Error.

#[local] Set Warnings "-register-all".

(** Values of the JSON documents returned by the identity provider. *)
Inductive json :=
| JNull
| JBool (b : bool)
| JNum (z : Z)
| JStr (s : string)
| JArr (l : list json)
| JObj (kv : list (string * json)).

(** A Python dict with string keys, in insertion order. *)
Definition dict := list (string * json).

Fixpoint dict_get (d : dict) (k : string) : option json :=
  match d with
  | [] => None
  | (k', v) :: d' => if String.eqb k k' then Some v else dict_get d' k
  end.

(** [d.get(k, default)] *)
Definition dict_get_default (d : dict) (k : string) (default : json) : json :=
  match dict_get d k with Some v => v | None => default end.

(** [d[k] = v]: replaces the value of an existing key in place, else
    appends the key. *)
Fixpoint dict_set (d : dict) (k : string) (v : json) : dict :=
  match d with
  | [] => [(k, v)]
  | (k', v') :: d' =>
      if String.eqb k k' then (k', v) :: d' else (k', v') :: dict_set d' k v
  end.

(** An HTTP request issued: URL, headers, [verify]. *)
Definition HttpRequest : Type := string * list (string * string) * bool.

(** What [requests.get] gives: a raised [RequestException] (connection
    error, timeout, ...) or a response with its status code and its body
    parsed as JSON ([None] if it is not JSON). *)
Inductive HttpResponse :=
| HttpRequestException
| HttpResponseOf (status : Z) (body : option json).

(** The effects threaded through the backend's hooks. *)
Record State := mkState {
  st_db : DB;
  st_session : Session;
  st_messages : list (level * string);   (* django.contrib.messages *)
  st_log : list (level * string);        (* logging.getLogger('k.users') *)
  st_http : list HttpRequest             (* requests issued *)
}.

(** The claims dict of the identity provider, by key. [None] is a
    missing key; for ['locale'] it also covers a [None] value, which
    [(... or '')] treats the same way. ['email'] is always present: the
    base flow's [verify_claims] rejects claims without it. *)
Record Claims := mkClaims {
  c_uid : option string;
  c_email : string;
  c_avatar : option string;
  c_displayName : option string;
  c_subscriptions : option (list string);
  c_locale : option string
}.

(** Configuration read through [django.conf.settings]. *)
Record Settings := mkSettings {
  SUMO_LANGUAGES : list string;
  LANGUAGE_CODE : string;
  FXA_OP_SUBSCRIPTION_ENDPOINT : option string;
  OIDC_VERIFY_SSL : bool   (* self.get_settings('OIDC_VERIFY_SSL', True) *)
}.

(** ** A state and exception monad *)
Module StateM.

Definition M (A : Type) : Type := State -> result A * State.

Definition ret {A} (a : A) : M A := fun st => (Ok a, st).

Definition raise {A} (e : exn) : M A := fun st => (Raise e, st).

Definition bind {A B} (m : M A) (k : A -> M B) : M B :=
  fun st => match m st with
            | (Ok a, st') => k a st'
            | (Raise e, st') => (Raise e, st')
            end.

Definition gets {A} (f : State -> A) : M A := fun st => (Ok (f st), st).

Definition modify (f : State -> State) : M unit := fun st => (Ok tt, f st).

End StateM.

Import StateM.
Notation "x <- m ;; k" := (bind m (fun x => k))
  (at level 61, m at next level, right associativity).

(** ** ORM operations *)

Definition set_db (db : DB) (st : State) : State :=
  mkState db (st_session st) (st_messages st) (st_log st) (st_http st).

Definition modify_db (f : DB -> DB) : M unit := modify (fun st => set_db (f (st_db st)) st).

Definition with_users (db : DB) (us : list User) : DB :=
  mkDB us (db_profiles db) (db_products db) (db_profile_products db) (db_groups db).
Definition with_profiles (db : DB) (ps : list Profile) : DB :=
  mkDB (db_users db) ps (db_products db) (db_profile_products db) (db_groups db).
Definition with_links (db : DB) (ls : list (nat * nat)) : DB :=
  mkDB (db_users db) (db_profiles db) (db_products db) ls (db_groups db).
Definition with_groups (db : DB) (gs : list (nat * string)) : DB :=
  mkDB (db_users db) (db_profiles db) (db_products db) (db_profile_products db) gs.

Definition option_string_eqb (a b : option string) : bool :=
  match a, b with
  | Some x, Some y => String.eqb x y
  | None, None => true
  | _, _ => false
  end.

(** The stored user with this id. *)
Definition user_by_id (db : DB) (id : nat) : option User :=
  find (fun u => Nat.eqb (user_id u) id) (db_users db).

(** The profile of user [id]. *)
Definition profile_of (db : DB) (id : nat) : option Profile :=
  find (fun p => Nat.eqb (prof_user p) id) (db_profiles db).

(** [user.profile] *)
Definition user_profile (user : User) : M Profile :=
  fun st => match profile_of (st_db st) (user_id user) with
            | Some p => (Ok p, st)
            | None => (Raise RelatedObjectDoesNotExist, st)
            end.

(** [Profile.objects.filter(fxa_uid=x).exists()]; [fxa_uid=None] is
    [IS NULL]. *)
Definition profile_exists_uid (x : option string) : M bool :=
  gets (fun st => existsb (fun p => option_string_eqb (fxa_uid p) x)
                          (db_profiles (st_db st))).

(** [User.objects.exclude(id=id).filter(email=e).exists()] *)
Definition email_taken (id : nat) (e : string) : M bool :=
  gets (fun st => existsb (fun u => negb (Nat.eqb (user_id u) id) && String.eqb (email u) e)
                          (db_users (st_db st))).

(** [user_model.objects.filter(profile__fxa_uid=uid)] *)
Definition users_by_fxa_uid (db : DB) (uid : string) : list User :=
  filter (fun u => existsb (fun p => Nat.eqb (prof_user p) (user_id u) &&
                                     option_string_eqb (fxa_uid p) (Some uid))
                           (db_profiles db))
         (db_users db).

(** [user.save()]: UPDATE of the row with this id, INSERT if none. *)
Definition save_user_db (db : DB) (u : User) : DB :=
  if existsb (fun v => Nat.eqb (user_id v) (user_id u)) (db_users db)
  then with_users db (map (fun v => if Nat.eqb (user_id v) (user_id u) then u else v)
                          (db_users db))
  else with_users db (db_users db ++ [u]).

Definition save_user (u : User) : M unit := modify_db (fun db => save_user_db db u).

(** [profile.save()] *)
Definition save_profile_db (db : DB) (p : Profile) : DB :=
  if existsb (fun q => Nat.eqb (prof_user q) (prof_user p)) (db_profiles db)
  then with_profiles db (map (fun q => if Nat.eqb (prof_user q) (prof_user p) then p else q)
                             (db_profiles db))
  else with_profiles db (db_profiles db ++ [p]).

(** The UNIQUE constraint on [Profile.fxa_uid] ([NULL]s apart): another
    profile already holds the UID of [p]. *)
Definition uid_conflict (db : DB) (p : Profile) : bool :=
  match fxa_uid p with
  | None => false
  | Some x => existsb (fun q => negb (Nat.eqb (prof_user q) (prof_user p)) &&
                                option_string_eqb (fxa_uid q) (Some x))
                      (db_profiles db)
  end.

(** [profile.save()]: the write fails with [IntegrityError] when it
    would break the uniqueness of [fxa_uid]. *)
Definition save_profile (p : Profile) : M unit :=
  fun st => if uid_conflict (st_db st) p then (Raise IntegrityError, st)
            else (Ok tt, set_db (save_profile_db (st_db st) p) st).

(** [with transaction.atomic(): ...]: an exception rolls the tables back
    to their state at the start of the block. *)
Definition atomic {A} (m : M A) : M A :=
  fun st => match m st with
            | (Raise e, st') => (Raise e, set_db (st_db st) st')
            | r => r
            end.

(** [Product.objects.filter(codename__in=subscriptions)] *)
Definition products_by_codename (db : DB) (subscriptions : list string) : list Product :=
  filter (fun p => existsb (String.eqb (codename p)) subscriptions) (db_products db).

(** [profile.products.clear()] *)
Definition products_clear_db (db : DB) (key : nat) : DB :=
  with_links db (filter (fun l => negb (Nat.eqb (fst l) key)) (db_profile_products db)).

Definition link_eqb (l l' : nat * nat) : bool :=
  Nat.eqb (fst l) (fst l') && Nat.eqb (snd l) (snd l').

(** [profile.products.add( *products)]: adds the links not yet present. *)
Definition products_add_db (db : DB) (key : nat) (ps : list Product) : DB :=
  with_links db
    (fold_left (fun ls p => if existsb (link_eqb (key, product_id p)) ls then ls
                            else ls ++ [(key, product_id p)])
               ps (db_profile_products db)).

(** The ids in the profile's [products] relation. *)
Definition linked_products (db : DB) (key : nat) : list nat :=
  map snd (filter (fun l => Nat.eqb (fst l) key) (db_profile_products db)).

Definition fresh_user_id (db : DB) : nat :=
  S (fold_left (fun m u => Nat.max m (user_id u)) (db_users db) 0%nat).

(** ** Session, messages and log *)

Definition set_session (s : Session) (st : State) : State :=
  mkState (st_db st) s (st_messages st) (st_log st) (st_http st).

Definition add_message (lv : level) (msg : string) : M unit :=
  modify (fun st => mkState (st_db st) (st_session st) (st_messages st ++ [(lv, msg)])
                            (st_log st) (st_http st)).

Definition log_record (lv : level) (msg : string) : M unit :=
  modify (fun st => mkState (st_db st) (st_session st) (st_messages st)
                            (st_log st ++ [(lv, msg)]) (st_http st)).

Definition record_http (r : HttpRequest) : M unit :=
  modify (fun st => mkState (st_db st) (st_session st) (st_messages st)
                            (st_log st) (st_http st ++ [r])).

(** ** Django's [BaseUserManager.normalize_email]

    Strings here hold code points below 256; Python 2's [unicode.strip]
    and [unicode.lower] are written out on that range. *)

(** [unicode.isspace] *)
Definition py_isspace (c : ascii) : bool :=
  let n := nat_of_ascii c in
  ((9 <=? n) && (n <=? 13))%nat || ((28 <=? n) && (n <=? 32))%nat ||
  (n =? 133)%nat || (n =? 160)%nat.

Fixpoint lstrip_list (l : list ascii) : list ascii :=
  match l with
  | c :: r => if py_isspace c then lstrip_list r else l
  | [] => []
  end.

(** [s.strip()] *)
Definition py_strip (s : string) : string :=
  string_of_list_ascii
    (rev (lstrip_list (rev (lstrip_list (list_ascii_of_string s))))).

(** [unicode.lower] on one character *)
Definition py_lower_char (c : ascii) : ascii :=
  let n := nat_of_ascii c in
  if ((65 <=? n) && (n <=? 90))%nat || ((192 <=? n) && (n <=? 222) && negb (n =? 215))%nat
  then ascii_of_nat (n + 32) else c.

Fixpoint py_lower (s : string) : string :=
  match s with
  | EmptyString => EmptyString
  | String c r => String (py_lower_char c) (py_lower r)
  end.

(** [s.rsplit(sep, 1)] when [sep] occurs: the parts before and after
    its last occurrence. *)
Fixpoint rsplit1 (sep : ascii) (s : string) : option (string * string) :=
  match s with
  | EmptyString => None
  | String c r =>
      match rsplit1 sep r with
      | Some (a, b) => Some (String c a, b)
      | None => if Ascii.eqb c sep then Some (EmptyString, r) else None
      end
  end.

(** [normalize_email(email)]: with an '@' in the stripped email, the
    stripped local part, '@' and the lower-cased domain; the email
    unchanged otherwise ([rsplit] gives one part and the unpacking
    raises [ValueError], which is caught). *)
Definition normalize_email (email : string) : string :=
  match rsplit1 "@" (py_strip email) with
  | Some (email_name, domain_part) => email_name ++ String "@" (py_lower domain_part)
  | None => email
  end.

(** ** The Firefox Accounts backend ([FXAAuthBackend]) *)

Section FxaBackend.

Variable settings : Settings.
(** [self.request], set by the base flow's [authenticate]. *)
Variable self_request : option Request.
(** [reverse('users.edit_my_profile')] *)
Variable edit_my_profile_url : string.
(** The base flow's username algorithm ([get_username]) on the claimed
    email, followed by Django's [normalize_username]. *)
Variable username_algo : string -> string.
(** [OIDCAuthenticationBackend.filter_users_by_claims] (match by email). *)
Variable base_filter_users_by_claims : Claims -> DB -> list User.
(** [OIDCAuthenticationBackend.get_userinfo] *)
Variable base_get_userinfo : string -> string -> json -> dict.
(** [requests.get(url, headers=..., verify=...)] *)
Variable http_get : string -> list (string * string) -> bool -> HttpResponse.

(** [self.request], whose absence makes [self.request.session] raise. *)
Definition the_request : M Request :=
  match self_request with
  | Some r => ret r
  | None => raise AttributeError
  end.

(** [self.request.session['oidc_login_next'] = v] *)
Definition session_set_next (v : string) : M unit :=
  _ <- the_request ;;
  modify (fun st => set_session (mkSession (Some v) (is_contributor (st_session st))) st).

(** [self.request.session.get('is_contributor', False)] *)
Definition session_is_contributor : M bool :=
  _ <- the_request ;;
  gets (fun st => match is_contributor (st_session st) with
                  | Some b => b
                  | None => false
                  end).

(** [del self.request.session['is_contributor']] *)
Definition session_del_is_contributor : M unit :=
  _ <- the_request ;;
  modify (fun st => set_session (mkSession (oidc_login_next (st_session st)) None) st).

(** [messages.info(self.request, msg)] / [messages.error(...)] *)
Definition message (lv : level) (msg : string) : M unit :=
  match self_request with
  | Some _ => add_message lv msg
  | None => raise TypeError   (* add_message(): not an HttpRequest *)
  end.

(** Modelled from the spec: [kitsune.users.utils.add_to_contributors],
    which performs the "become a contributor" side effect: the user joins
    the contributors group. *)
Definition add_to_contributors (user : User) (language_code : string) : M unit :=
  modify_db (fun db => with_groups db (db_groups db ++ [(user_id user, "Contributors")])).

(** [OIDCAuthenticationBackend.create_user]:
    [UserModel.objects.create_user(username, email=email)], that is
    Django's [UserManager._create_user]: an empty username raises
    [ValueError]; the email is stored through [normalize_email]; the
    password is unusable (the ['!'] prefix of [make_password(None)]);
    the INSERT fails with [IntegrityError] on a username already taken
    ([username] is unique). *)
Definition base_create_user (claims : Claims) : M User :=
  fun st =>
    let db := st_db st in
    let uname := username_algo (c_email claims) in
    if String.eqb uname "" then (Raise ValueError, st)
    else if existsb (fun v => String.eqb (username v) uname) (db_users db)
    then (Raise IntegrityError, st)
    else
      let u := mkUser (fresh_user_id db) uname (normalize_email (c_email claims))
                      "!" None false in
      (Ok u, set_db (with_users db (db_users db ++ [u])) st).

(** [Profile.objects.get_or_create(user=user)]; a new profile has the
    model's defaults. *)
Definition profile_get_or_create (user : User) : M Profile :=
  fun st =>
    match profile_of (st_db st) (user_id user) with
    | Some p => (Ok p, st)
    | None =>
        let p := mkProfile (user_id user) false None "" "" (LANGUAGE_CODE settings) in
        (Ok p, set_db (with_profiles (st_db st) (db_profiles (st_db st) ++ [p])) st)
    end.

(** [profile.products.clear(); profile.products.add( *products)] with
    [products = Product.objects.filter(codename__in=subscriptions)] *)
Definition set_products (key : nat) (subscriptions : list string) : M unit :=
  products <- gets (fun st => products_by_codename (st_db st) subscriptions) ;;
  _ <- modify_db (fun db => products_clear_db db key) ;;
  modify_db (fun db => products_add_db db key products).

Definition get_str (o : option string) : string :=
  match o with Some s => s | None => "" end.

Definition get_subscriptions (claims : Claims) : list string :=
  match c_subscriptions claims with Some l => l | None => [] end.

(** [(claims.get('locale', '') or '').split(',')[0]] *)
Definition fxa_locale_of (claims : Claims) : string :=
  match py_split "," (get_str (c_locale claims)) with
  | l :: _ => l
  | [] => ""
  end.

(** [FXAAuthBackend.create_user] *)
Definition create_user (claims : Claims) : M User :=
  user <- base_create_user claims ;;
  profile <- profile_get_or_create user ;;
  let subscriptions := get_subscriptions claims in
  let fxa_locale := fxa_locale_of claims in
  let loc := if existsb (String.eqb fxa_locale) (SUMO_LANGUAGES settings)
             then fxa_locale else LANGUAGE_CODE settings in
  let profile := mkProfile (prof_user profile) true (c_uid claims)
                   (get_str (c_avatar claims)) (get_str (c_displayName claims)) loc in
  _ <- save_profile profile ;;
  _ <- set_products (prof_user profile) subscriptions ;;
  _ <- session_set_next edit_my_profile_url ;;
  _ <- message Info "fxa_notification_created" ;;
  contributor <- session_is_contributor ;;
  if contributor then
    r <- the_request ;;
    _ <- add_to_contributors user (req_language_code r) ;;
    _ <- session_del_is_contributor ;;
    ret user
  else ret user.

(** [FXAAuthBackend.filter_users_by_claims] *)
Definition filter_users_by_claims (claims : Claims) : M (list User) :=
  match c_uid claims with
  | None | Some EmptyString =>
      _ <- log_record Warning "Failed to get Firefox Account UID." ;; ret []
  | Some fxa_uid =>
      let by_uid :=
        users <- gets (fun st => users_by_fxa_uid (st_db st) fxa_uid) ;;
        match users with
        | [] => gets (fun st => base_filter_users_by_claims claims (st_db st))
        | _ => ret users
        end in
      match self_request with
      | Some r => if is_authenticated (req_user r)
                  then match req_user r with
                       | AuthenticatedUser u => ret [u]
                       | AnonymousUser => by_uid
                       end
                  else by_uid
      | None => by_uid
      end
  end.

(** [FXAAuthBackend.get_userinfo] *)
Definition get_userinfo (access_token id_token : string) (payload : json) : M dict :=
  let user_info := base_get_userinfo access_token id_token payload in
  match FXA_OP_SUBSCRIPTION_ENDPOINT settings with
  | None | Some EmptyString => ret user_info
  | Some url =>
      let headers := [("Authorization", "Bearer " ++ access_token)%string] in
      let verify := OIDC_VERIFY_SSL settings in
      _ <- record_http (url, headers, verify) ;;
      match http_get url headers verify with
      | HttpRequestException =>
          _ <- log_record Error "Failed to fetch subscription status" ;; ret user_info
      | HttpResponseOf status body =>
          (* sub_response.raise_for_status() *)
          if (400 <=? status) && (status <? 600) then
            _ <- log_record Error "Failed to fetch subscription status" ;; ret user_info
          else
            (* sub_response.json().get('subscriptions', []) *)
            match body with
            | None => raise ValueError
            | Some (JObj kv) =>
                ret (dict_set user_info "subscriptions"
                       (dict_get_default kv "subscriptions" (JArr [])))
            | Some _ => raise AttributeError
            end
      end
  end.

(** The tail of [update_user] after the two conflict checks. *)
Definition update_user_finish (claims : Claims) (user : User) (profile : Profile)
    (user_attr_changed : bool) : M (option User) :=
  let profile := mkProfile (prof_user profile) (is_fxa_migrated profile) (fxa_uid profile)
                   (get_str (c_avatar claims)) (name profile) (locale profile) in
  _ <- set_products (prof_user profile) (get_subscriptions claims) ;;
  let profile := if String.eqb (name profile) ""
                 then mkProfile (prof_user profile) (is_fxa_migrated profile) (fxa_uid profile)
                        (fxa_avatar profile) (get_str (c_displayName claims)) (locale profile)
                 else profile in
  _ <- atomic (_ <- (if user_attr_changed then save_user user else ret tt) ;;
                save_profile profile) ;;
  ret (Some user).

(** [FXAAuthBackend.update_user] *)
Definition update_user (user : User) (claims : Claims) : M (option User) :=
  profile <- user_profile user ;;
  let fxa_uid := c_uid claims in
  let email_claim := c_email claims in
  checked <- (if negb (is_fxa_migrated profile) then
                exists_uid <- profile_exists_uid fxa_uid ;;
                if exists_uid then
                  _ <- message Error "This Firefox Account is already used in another profile." ;;
                  ret None
                else
                  let profile := mkProfile (prof_user profile) true fxa_uid (fxa_avatar profile)
                                   (name profile) (locale profile) in
                  _ <- session_set_next edit_my_profile_url ;;
                  _ <- message Info "fxa_notification_updated" ;;
                  ret (Some profile)
              else ret (Some profile)) ;;
  match checked with
  | None => ret None
  | Some profile =>
      if negb (String.eqb (email user) email_claim) && negb (is_staff user) then
        taken <- email_taken (user_id user) email_claim ;;
        if taken then
          _ <- message Error ("The email used with this Firefox Account is already " ++
                              "linked in another profile.")%string ;;
          ret None
        else
          let user := mkUser (user_id user) (username user) email_claim (password user)
                        (last_login user) (is_staff user) in
          update_user_finish claims user profile true
      else update_user_finish claims user profile false
  end.

End FxaBackend.


(** The candidate order of [filter_users_by_claims] as the spec words it:
    no candidate without a UID; else the session's authenticated user
    alone; else the users whose profile stores the UID; else the base
    flow's claim-based lookup. *)
Definition candidates_spec (uid_present : bool) (session_user : option User)
    (by_uid by_claims : list User) : list User :=
  if negb uid_present then []
  else match session_user with
       | Some u => [u]
       | None => match by_uid with
                 | [] => by_claims
                 | _ => by_uid
                 end
       end.

(** The authenticated user of the session, if any. *)
Definition session_user_of (request : option Request) : option User :=
  match request with
  | Some r => match req_user r with
              | AuthenticatedUser u => Some u
              | AnonymousUser => None
              end
  | None => None
  end.

Definition uid_present (claims : Claims) : bool :=
  match c_uid claims with
  | None | Some EmptyString => false
  | Some _ => true
  end.

(** ** Sample data *)
Module Sample.

Definition settings : Settings :=
  mkSettings ["en-US"; "de"; "fr"] "en-US" (Some "https://subscriptions.example/v1") true.

Definition request : Request := mkRequest "/fxa/callback/" AnonymousUser "de".

Definition bob : User := mkUser 1 "bob" "bob@example.com" "pw1" None false.
Definition eve : User := mkUser 2 "eve" "eve@example.com" "pw2" (Some 50%nat) false.

(** Bob's profile is not migrated yet; Eve's holds the UID "uidX". *)
Definition bob_profile : Profile := mkProfile 1 false None "" "" "en-US".
Definition eve_profile : Profile := mkProfile 2 true (Some "uidX") "" "Eve" "de".

Definition db : DB :=
  mkDB [bob; eve] [bob_profile; eve_profile]
       [mkProduct 10 "firefox"; mkProduct 11 "vpn"]
       [(1%nat, 11%nat); (2%nat, 10%nat)] [].

Definition state : State := mkState db (mkSession None (Some true)) [] [] [].

(** Claims carrying Eve's UID and a new, free email. *)
Definition claims_uidX : Claims :=
  mkClaims (Some "uidX") "bob.new@example.com" (Some "https://avatar") (Some "Bob")
           (Some ["firefox"]) (Some "de,fr").

(** Claims with a fresh UID, no locale and Eve's email. *)
Definition claims_eve_email : Claims :=
  mkClaims (Some "uidY") "eve@example.com" None None (Some ["vpn"]) None.

(** Claims with a fresh UID and a new, free email. *)
Definition claims_fresh : Claims :=
  mkClaims (Some "uidY") "bob.new@example.com" (Some "https://avatar") (Some "Bob")
           (Some ["firefox"; "unknown"]) None.

Definition base_userinfo (access_token id_token : string) (payload : json) : dict :=
  [("email", JStr "bob@example.com"); ("subscriptions", JArr [JStr "old"])].

Definition http_ok (url : string) (headers : list (string * string)) (verify : bool)
  : HttpResponse :=
  HttpResponseOf 200 (Some (JObj [("subscriptions", JArr [JStr "firefox"])])).

Definition http_down (url : string) (headers : list (string * string)) (verify : bool)
  : HttpResponse :=
  HttpRequestException.

(** Bob after [update_user] with [claims_fresh]. *)
Definition bob_updated : User := mkUser 1 "bob" "bob.new@example.com" "pw1" None false.

(** A user with no profile. *)
Definition zed : User := mkUser 5 "zed" "zed@example.com" "pw5" None false.

(** Settings without a subscription endpoint. *)
Definition settings_no_endpoint : Settings := mkSettings ["en-US"] "en-US" None true.

(** An endpoint answering 200 with a JSON list instead of an object. *)
Definition http_list_body (url : string) (headers : list (string * string)) (verify : bool)
  : HttpResponse :=
  HttpResponseOf 200 (Some (JArr [JStr "firefox"])).

(** Ann's username was computed from her former email; she has since
    moved to another address. *)
Definition ann : User := mkUser 3 "ann@example.com" "ann.new@example.com" "pw3" None false.
Definition ann_profile : Profile := mkProfile 3 true (Some "uidA") "" "Ann" "en-US".

Definition db_ann : DB :=
  mkDB [bob; eve; ann] [bob_profile; eve_profile; ann_profile]
       (db_products db) (db_profile_products db) [].

Definition state_ann : State := mkState db_ann (mkSession None None) [] [] [].

(** A new account, with a UID no profile holds, whose email is Ann's
    former email. *)
Definition claims_ann_old : Claims :=
  mkClaims (Some "uidZ") "ann@example.com" None None None None.

End Sample.

(** ** base64 round trip *)
(** ** Facts on the tables *)
Module TableFacts.

Lemma find_app_false {A} (f : A -> bool) (l : list A) (x : A) :
  f x = false -> find f (l ++ [x]) = find f l.
Proof.
  intros Hx. induction l as [|y l IH]; cbn; [rewrite Hx; reflexivity|].
  destruct (f y); [reflexivity|exact IH].
Qed.

Lemma find_map_keep {A} (f : A -> bool) (g : A -> A) (l : list A) :
  (forall y, f y = true -> g y = y) -> (forall y, f (g y) = f y) ->
  find f (map g l) = find f l.
Proof.
  intros H1 H2. induction l as [|y l IH]; cbn; [reflexivity|].
  rewrite H2. destruct (f y) eqn:E; [rewrite (H1 y E); reflexivity|exact IH].
Qed.

Lemma user_by_id_append (db : DB) (u : User) (id : nat) :
  user_id u <> id ->
  user_by_id (with_users db (db_users db ++ [u])) id = user_by_id db id.
Proof.
  intros Hne. unfold user_by_id. cbn [with_users db_users].
  apply find_app_false, Nat.eqb_neq, Hne.
Qed.

Lemma user_by_id_save_other (db : DB) (u : User) (id : nat) :
  user_id u <> id -> user_by_id (save_user_db db u) id = user_by_id db id.
Proof.
  intros Hne. unfold save_user_db.
  destruct (existsb _ (db_users db)); [|apply user_by_id_append, Hne].
  unfold user_by_id. cbn [with_users db_users]. apply find_map_keep.
  - intros y Hy. apply Nat.eqb_eq in Hy. rewrite Hy.
    replace (Nat.eqb id (user_id u)) with false; [reflexivity|].
    symmetry. apply Nat.eqb_neq. intros He. apply Hne. symmetry. exact He.
  - intros y. destruct (Nat.eqb (user_id y) (user_id u)) eqn:E; [|reflexivity].
    apply Nat.eqb_eq in E. rewrite E. reflexivity.
Qed.

Lemma profile_of_append (db : DB) (p : Profile) (id : nat) :
  prof_user p <> id ->
  profile_of (with_profiles db (db_profiles db ++ [p])) id = profile_of db id.
Proof.
  intros Hne. unfold profile_of. cbn [with_profiles db_profiles].
  apply find_app_false, Nat.eqb_neq, Hne.
Qed.

Lemma profile_of_save_other (db : DB) (p : Profile) (id : nat) :
  prof_user p <> id -> profile_of (save_profile_db db p) id = profile_of db id.
Proof.
  intros Hne. unfold save_profile_db.
  destruct (existsb _ (db_profiles db)); [|apply profile_of_append, Hne].
  unfold profile_of. cbn [with_profiles db_profiles]. apply find_map_keep.
  - intros y Hy. apply Nat.eqb_eq in Hy. rewrite Hy.
    replace (Nat.eqb id (prof_user p)) with false; [reflexivity|].
    symmetry. apply Nat.eqb_neq. intros He. apply Hne. symmetry. exact He.
  - intros y. destruct (Nat.eqb (prof_user y) (prof_user p)) eqn:E; [|reflexivity].
    apply Nat.eqb_eq in E. rewrite E. reflexivity.
Qed.

Lemma linked_products_links (db db' : DB) (id : nat) :
  db_profile_products db = db_profile_products db' ->
  linked_products db id = linked_products db' id.
Proof. unfold linked_products. intros ->. reflexivity. Qed.

(** Replacing one profile's products leaves every other profile's. *)
Lemma linked_products_replace_other (db : DB) (key id : nat) (ps : list Product) :
  key <> id ->
  linked_products (products_add_db (products_clear_db db key) key ps) id =
  linked_products db id.
Proof.
  intros Hne. unfold linked_products, products_add_db, products_clear_db.
  cbn [with_links db_profile_products]. f_equal.
  assert (Hadd : forall ls,
    filter (fun l => Nat.eqb (fst l) id)
      (fold_left (fun ls p => if existsb (link_eqb (key, product_id p)) ls then ls
                              else ls ++ [(key, product_id p)]) ps ls) =
    filter (fun l => Nat.eqb (fst l) id) ls).
  { induction ps as [|p ps IH]; intros ls; cbn; [reflexivity|].
    rewrite IH. destruct (existsb _ ls); [reflexivity|].
    rewrite filter_app. cbn. apply Nat.eqb_neq in Hne. rewrite Hne. apply app_nil_r. }
  rewrite Hadd.
  induction (db_profile_products db) as [|[k x] ls IH]; cbn; [reflexivity|].
  destruct (Nat.eqb k key) eqn:Ek; destruct (Nat.eqb k id) eqn:Ei; cbn; rewrite ?Ei.
  - apply Nat.eqb_eq in Ek, Ei. exfalso. apply Hne. congruence.
  - exact IH.
  - f_equal. exact IH.
  - exact IH.
Qed.

Lemma save_profile_db_groups (db : DB) (p : Profile) :
  db_groups (save_profile_db db p) = db_groups db.
Proof. unfold save_profile_db. destruct (existsb _ _); reflexivity. Qed.

Lemma save_user_db_groups (db : DB) (u : User) :
  db_groups (save_user_db db u) = db_groups db.
Proof. unfold save_user_db. destruct (existsb _ _); reflexivity. Qed.

Lemma save_user_db_profiles (db : DB) (u : User) :
  db_profiles (save_user_db db u) = db_profiles db.
Proof. unfold save_user_db. destruct (existsb _ _); reflexivity. Qed.

Lemma user_by_id_with_groups (db : DB) (gs : list (nat * string)) (id : nat) :
  user_by_id (with_groups db gs) id = user_by_id db id.
Proof. reflexivity. Qed.
Lemma user_by_id_products_add (db : DB) (k : nat) (ps : list Product) (id : nat) :
  user_by_id (products_add_db db k ps) id = user_by_id db id.
Proof. reflexivity. Qed.
Lemma user_by_id_products_clear (db : DB) (k id : nat) :
  user_by_id (products_clear_db db k) id = user_by_id db id.
Proof. reflexivity. Qed.
Lemma user_by_id_save_profile (db : DB) (p : Profile) (id : nat) :
  user_by_id (save_profile_db db p) id = user_by_id db id.
Proof. unfold save_profile_db. destruct (existsb _ _); reflexivity. Qed.
Lemma user_by_id_with_profiles (db : DB) (ps : list Profile) (id : nat) :
  user_by_id (with_profiles db ps) id = user_by_id db id.
Proof. reflexivity. Qed.

Lemma profile_of_with_groups (db : DB) (gs : list (nat * string)) (id : nat) :
  profile_of (with_groups db gs) id = profile_of db id.
Proof. reflexivity. Qed.
Lemma profile_of_products_add (db : DB) (k : nat) (ps : list Product) (id : nat) :
  profile_of (products_add_db db k ps) id = profile_of db id.
Proof. reflexivity. Qed.
Lemma profile_of_products_clear (db : DB) (k id : nat) :
  profile_of (products_clear_db db k) id = profile_of db id.
Proof. reflexivity. Qed.
Lemma profile_of_save_user (db : DB) (u : User) (id : nat) :
  profile_of (save_user_db db u) id = profile_of db id.
Proof. unfold save_user_db. destruct (existsb _ _); reflexivity. Qed.
Lemma profile_of_with_users (db : DB) (us : list User) (id : nat) :
  profile_of (with_users db us) id = profile_of db id.
Proof. reflexivity. Qed.

Lemma linked_with_groups (db : DB) (gs : list (nat * string)) (id : nat) :
  linked_products (with_groups db gs) id = linked_products db id.
Proof. reflexivity. Qed.
Lemma linked_save_profile (db : DB) (p : Profile) (id : nat) :
  linked_products (save_profile_db db p) id = linked_products db id.
Proof. unfold save_profile_db. destruct (existsb _ _); reflexivity. Qed.
Lemma linked_save_user (db : DB) (u : User) (id : nat) :
  linked_products (save_user_db db u) id = linked_products db id.
Proof. unfold save_user_db. destruct (existsb _ _); reflexivity. Qed.
Lemma linked_with_users (db : DB) (us : list User) (id : nat) :
  linked_products (with_users db us) id = linked_products db id.
Proof. reflexivity. Qed.
Lemma linked_with_profiles (db : DB) (ps : list Profile) (id : nat) :
  linked_products (with_profiles db ps) id = linked_products db id.
Proof. reflexivity. Qed.

Lemma products_by_codename_save_profile (db : DB) (p : Profile) (subs : list string) :
  products_by_codename (save_profile_db db p) subs = products_by_codename db subs.
Proof. unfold save_profile_db. destruct (existsb _ _); reflexivity. Qed.


Lemma uid_conflict_profiles (db db' : DB) (p : Profile) :
  db_profiles db' = db_profiles db -> uid_conflict db' p = uid_conflict db p.
Proof. unfold uid_conflict. intros ->. reflexivity. Qed.

Lemma uid_conflict_with_groups (db : DB) (gs : list (nat * string)) (p : Profile) :
  uid_conflict (with_groups db gs) p = uid_conflict db p.
Proof. reflexivity. Qed.
Lemma uid_conflict_products_add (db : DB) (k : nat) (ps : list Product) (p : Profile) :
  uid_conflict (products_add_db db k ps) p = uid_conflict db p.
Proof. reflexivity. Qed.
Lemma uid_conflict_products_clear (db : DB) (k : nat) (p : Profile) :
  uid_conflict (products_clear_db db k) p = uid_conflict db p.
Proof. reflexivity. Qed.
Lemma uid_conflict_save_user (db : DB) (u : User) (p : Profile) :
  uid_conflict (save_user_db db u) p = uid_conflict db p.
Proof. unfold save_user_db. destruct (existsb _ _); reflexivity. Qed.
Lemma uid_conflict_with_users (db : DB) (us : list User) (p : Profile) :
  uid_conflict (with_users db us) p = uid_conflict db p.
Proof. reflexivity. Qed.

(** A profile appended under the same user does not count against [p]. *)
Lemma uid_conflict_append_same (db : DB) (d p : Profile) :
  prof_user d = prof_user p ->
  uid_conflict (with_profiles db (db_profiles db ++ [d])) p = uid_conflict db p.
Proof.
  intros Hd. unfold uid_conflict. cbn [with_profiles db_profiles].
  destruct (fxa_uid p); [|reflexivity].
  rewrite existsb_app. cbn. rewrite Hd, Nat.eqb_refl. cbn. apply orb_false_r.
Qed.

(** The key and UID of [p] alone decide a conflict. *)
Lemma uid_conflict_key (db : DB) (p q : Profile) :
  prof_user q = prof_user p -> fxa_uid q = fxa_uid p -> uid_conflict db q = uid_conflict db p.
Proof. unfold uid_conflict. intros -> ->. reflexivity. Qed.

End TableFacts.

Create Rewrite HintDb tables.
#[export] Hint Rewrite TableFacts.user_by_id_with_groups TableFacts.user_by_id_products_add
  TableFacts.user_by_id_products_clear TableFacts.user_by_id_save_profile
  TableFacts.user_by_id_with_profiles
  TableFacts.profile_of_with_groups TableFacts.profile_of_products_add
  TableFacts.profile_of_products_clear TableFacts.profile_of_save_user
  TableFacts.profile_of_with_users
  TableFacts.linked_with_groups TableFacts.linked_save_profile TableFacts.linked_save_user
  TableFacts.linked_with_users TableFacts.linked_with_profiles
  TableFacts.products_by_codename_save_profile
  TableFacts.uid_conflict_with_groups TableFacts.uid_conflict_products_add
  TableFacts.uid_conflict_products_clear TableFacts.uid_conflict_save_user
  TableFacts.uid_conflict_with_users : tables.

(** Runs [update_user_finish] down to its table operations. *)
Ltac run_finish :=
  unfold update_user_finish, atomic, save_profile, save_user, set_products, modify_db,
    modify, gets, bind, ret;
  cbn -[uid_conflict save_profile_db save_user_db products_add_db products_clear_db
        products_by_codename profile_of user_by_id linked_products].

Module Base64Facts.
Import Base64.

Lemma code_bounds (c : ascii) : 0 <= code c < 256.
Proof. unfold code. pose proof (nat_ascii_bounded c). lia. Qed.

Lemma chr_code (c : ascii) : chr (code c) = c.
Proof. unfold chr, code. rewrite Nat2Z.id. apply ascii_nat_embedding. Qed.

(** The characters of the alphabet are plain, valid, and decode back. *)
Definition sextet_ok (v : Z) : bool :=
  let n := code (table_b2a v) in
  (n <=? 127) && negb (n =? 13) && negb (n =? 10) && negb (n =? 32)
  && negb (n =? PAD) && (table_a2b n =? v).

Lemma sextet_ok_all (v : Z) : 0 <= v < 64 -> sextet_ok v = true.
Proof.
  intros Hv. replace v with (Z.of_nat (Z.to_nat v)) by lia.
  assert (Hn : (Z.to_nat v < 64)%nat) by lia.
  generalize dependent (Z.to_nat v). intros n Hn.
  do 64 (destruct n as [|n]; [reflexivity|]). lia.
Qed.

Lemma sextet_facts (v : Z) : 0 <= v < 64 ->
  let n := code (table_b2a v) in
  ((127 <? n) || (n =? 13) || (n =? 10) || (n =? 32)) = false /\
  (n =? PAD) = false /\ table_a2b n = v.
Proof.
  intros Hv. pose proof (sextet_ok_all v Hv) as H. unfold sextet_ok in H.
  cbn zeta in *. set (n := code (table_b2a v)) in *.
  repeat rewrite andb_true_iff in H. rewrite !negb_true_iff in H.
  destruct H as [[[[[H1 H2] H3] H4] H5] H6].
  rewrite Z.leb_le in H1. rewrite Z.eqb_eq in H6.
  rewrite H2, H3, H4, H5. repeat split; auto.
  rewrite !orb_false_r. apply Z.ltb_ge. lia.
Qed.

(** Bit operations on non-negative numbers as arithmetic *)
Lemma shiftl_mul (x k : Z) : 0 <= k -> Z.shiftl x k = x * 2 ^ k.
Proof. intros. apply Z.shiftl_mul_pow2; lia. Qed.

Lemma shiftr_div (x k : Z) : 0 <= k -> Z.shiftr x k = x / 2 ^ k.
Proof. intros. apply Z.shiftr_div_pow2; lia. Qed.

Lemma land_mod (x k : Z) : 0 <= k -> Z.land x (2 ^ k - 1) = x mod 2 ^ k.
Proof.
  intros Hk. rewrite <- Z.land_ones by lia. f_equal.
  rewrite Z.ones_equiv. lia.
Qed.

Lemma lor_add (x v k : Z) : 0 <= k -> 0 <= v < 2 ^ k ->
  Z.lor (x * 2 ^ k) v = x * 2 ^ k + v.
Proof.
  intros Hk Hv.
  assert (H0 : Z.land (x * 2 ^ k) v = 0).
  2:{ rewrite <- Z.lxor_lor by exact H0. symmetry. apply Z.add_nocarry_lxor, H0. }
  apply Z.bits_inj'. intros i Hi. rewrite Z.land_spec, Z.bits_0.
  destruct (Z.lt_ge_cases i k) as [Hlt|Hge].
  - rewrite <- shiftl_mul by lia. rewrite Z.shiftl_spec_low by lia. reflexivity.
  - rewrite <- (Z.mod_small v (2 ^ k)) by lia.
    rewrite Z.mod_pow2_bits_high by lia. apply andb_false_r.
Qed.

Ltac bits_to_arith :=
  repeat first
    [ rewrite (shiftl_mul _ 6) by lia
    | rewrite (shiftl_mul _ 4) by lia
    | rewrite (shiftl_mul _ 2) by lia
    | rewrite (shiftr_div _ 2) by lia
    | rewrite (shiftr_div _ 4) by lia
    | rewrite (shiftr_div _ 6) by lia
    | rewrite (shiftr_div _ 0) by lia ].

Lemma step_nout (v : Z) (rest : string) (qp lc lb : Z) :
  0 <= v < 64 -> lb + 6 < 8 ->
  a2b_loop (String (table_b2a v) rest) qp lc lb =
  a2b_loop rest (Z.land (qp + 1) 3) (Z.lor (Z.shiftl lc 6) v) (lb + 6).
Proof.
  intros Hv Hlb. destruct (sextet_facts v Hv) as [H1 [H2 H3]].
  cbn [a2b_loop]. rewrite H1, H2, H3.
  replace (v =? -1) with false by (symmetry; apply Z.eqb_neq; lia).
  replace (8 <=? lb + 6) with false by (symmetry; apply Z.leb_gt; lia).
  reflexivity.
Qed.

Lemma step_out (v : Z) (rest : string) (qp lc lb : Z) :
  0 <= v < 64 -> 8 <= lb + 6 ->
  a2b_loop (String (table_b2a v) rest) qp lc lb =
  let lc' := Z.lor (Z.shiftl lc 6) v in
  let (r, out) := a2b_loop rest (Z.land (qp + 1) 3)
                    (Z.land lc' (Z.shiftl 1 (lb + 6 - 8) - 1)) (lb + 6 - 8) in
  (r, String (chr (Z.land (Z.shiftr lc' (lb + 6 - 8)) 255)) out).
Proof.
  intros Hv Hlb. destruct (sextet_facts v Hv) as [H1 [H2 H3]].
  cbn [a2b_loop]. rewrite H1, H2, H3.
  replace (v =? -1) with false by (symmetry; apply Z.eqb_neq; lia).
  replace (8 <=? lb + 6) with true by (symmetry; apply Z.leb_le; lia).
  reflexivity.
Qed.

Lemma land_3 (x : Z) : Z.land x 3 = x mod 4.
Proof. exact (land_mod x 2 ltac:(lia)). Qed.
Lemma land_15 (x : Z) : Z.land x 15 = x mod 16.
Proof. exact (land_mod x 4 ltac:(lia)). Qed.
Lemma land_63 (x : Z) : Z.land x 63 = x mod 64.
Proof. exact (land_mod x 6 ltac:(lia)). Qed.
Lemma land_255 (x : Z) : Z.land x 255 = x mod 256.
Proof. exact (land_mod x 8 ltac:(lia)). Qed.

Lemma chr_eq (z : Z) (c : ascii) : z = code c -> chr z = c.
Proof. intros ->. apply chr_code. Qed.

Lemma decode_group (a b c : ascii) (rest : string) :
  a2b_loop (enc3 a b c ++ rest) 0 0 0 =
  let (r, out) := a2b_loop rest 0 0 0 in
  (r, String a (String b (String c out))).
Proof.
  pose proof (code_bounds a) as Ha. pose proof (code_bounds b) as Hb.
  pose proof (code_bounds c) as Hc.
  unfold enc3. cbn zeta.
  set (x := code a) in *. set (y := code b) in *. set (z := code c) in *.
  assert (E0 : Z.shiftr x 2 = x / 4) by (rewrite shiftr_div; reflexivity || lia).
  assert (E1 : Z.lor (Z.shiftl (Z.land x 3) 4) (Z.shiftr y 4) = x mod 4 * 16 + y / 16).
  { rewrite land_3, shiftl_mul, shiftr_div, lor_add by (Z.div_mod_to_equations; lia).
    reflexivity. }
  assert (E2 : Z.lor (Z.shiftl (Z.land y 15) 2) (Z.shiftr z 6) = y mod 16 * 4 + z / 64).
  { rewrite land_15, shiftl_mul, shiftr_div, lor_add by (Z.div_mod_to_equations; lia).
    reflexivity. }
  rewrite E0, E1, E2, land_63. cbn [append].
  rewrite step_nout by (Z.div_mod_to_equations; lia).
  rewrite step_out by (Z.div_mod_to_equations; lia). cbn zeta.
  rewrite step_out by (Z.div_mod_to_equations; lia). cbn zeta.
  rewrite step_out by (Z.div_mod_to_equations; lia). cbn zeta.
  change (Z.land (Z.land (Z.land (Z.land (0 + 1) 3 + 1) 3 + 1) 3 + 1) 3) with 0.
  change (0 + 6 + 6 - 8) with 4. change (4 + 6 - 8) with 2. change (2 + 6 - 8) with 0.
  change (Z.shiftl 1 4 - 1) with 15. change (Z.shiftl 1 2 - 1) with 3.
  change (Z.shiftl 1 0 - 1) with 0.
  rewrite !(shiftl_mul _ 6), !land_15, !land_3, !land_255 by lia.
  rewrite Z.land_0_r.
  rewrite !(lor_add _ _ 6) by (Z.div_mod_to_equations; lia).
  rewrite !shiftr_div by lia.
  destruct (a2b_loop rest 0 0 0) as [r out].
  f_equal. f_equal; [apply chr_eq|f_equal; [apply chr_eq|f_equal; apply chr_eq]];
    change (2 ^ 6) with 64; change (2 ^ 4) with 16; change (2 ^ 2) with 4;
    change (2 ^ 0) with 1; Z.div_mod_to_equations; lia.
Qed.

Lemma decode_tail2 (a b : ascii) :
  a2b_loop (enc2 a b) 0 0 0 = (0, String a (String b EmptyString)).
Proof.
  pose proof (code_bounds a) as Ha. pose proof (code_bounds b) as Hb.
  unfold enc2. cbn zeta.
  set (x := code a) in *. set (y := code b) in *.
  assert (E0 : Z.shiftr x 2 = x / 4) by (rewrite shiftr_div; reflexivity || lia).
  assert (E1 : Z.lor (Z.shiftl (Z.land x 3) 4) (Z.shiftr y 4) = x mod 4 * 16 + y / 16).
  { rewrite land_3, shiftl_mul, shiftr_div, lor_add by (Z.div_mod_to_equations; lia).
    reflexivity. }
  assert (E2 : Z.shiftl (Z.land y 15) 2 = y mod 16 * 4).
  { rewrite land_15, shiftl_mul by lia. reflexivity. }
  rewrite E0, E1, E2.
  rewrite step_nout by (Z.div_mod_to_equations; lia).
  rewrite step_out by (Z.div_mod_to_equations; lia). cbn zeta.
  rewrite step_out by (Z.div_mod_to_equations; lia). cbn zeta.
  change (Z.land (Z.land (Z.land (0 + 1) 3 + 1) 3 + 1) 3) with 3.
  change (0 + 6 + 6 - 8) with 4. change (4 + 6 - 8) with 2.
  change (a2b_loop (String "="%char EmptyString) 3 ?lc 2) with (0, EmptyString).
  change (Z.shiftl 1 4 - 1) with 15.
  rewrite !(shiftl_mul _ 6), !land_15, !land_255 by lia.
  rewrite !(lor_add _ _ 6) by (Z.div_mod_to_equations; lia).
  rewrite !shiftr_div by lia.
  f_equal. f_equal; [apply chr_eq|f_equal; apply chr_eq];
    change (2 ^ 6) with 64; change (2 ^ 4) with 16; change (2 ^ 2) with 4;
    Z.div_mod_to_equations; lia.
Qed.

Lemma decode_tail1 (a : ascii) :
  a2b_loop (enc1 a) 0 0 0 = (0, String a EmptyString).
Proof.
  pose proof (code_bounds a) as Ha.
  unfold enc1. cbn zeta. set (x := code a) in *.
  assert (E0 : Z.shiftr x 2 = x / 4) by (rewrite shiftr_div; reflexivity || lia).
  assert (E1 : Z.shiftl (Z.land x 3) 4 = x mod 4 * 16).
  { rewrite land_3, shiftl_mul by lia. reflexivity. }
  rewrite E0, E1.
  rewrite step_nout by (Z.div_mod_to_equations; lia).
  rewrite step_out by (Z.div_mod_to_equations; lia). cbn zeta.
  change (Z.land (Z.land (0 + 1) 3 + 1) 3) with 2.
  change (0 + 6 + 6 - 8) with 4.
  change (a2b_loop (String "="%char (String "="%char EmptyString)) 2 ?lc 4)
    with (0, EmptyString).
  rewrite !(shiftl_mul _ 6), !land_255 by lia.
  rewrite !(lor_add _ _ 6) by (Z.div_mod_to_equations; lia).
  rewrite !shiftr_div by lia.
  f_equal. f_equal. apply chr_eq.
  change (2 ^ 6) with 64; change (2 ^ 4) with 16.
  Z.div_mod_to_equations; lia.
Qed.

Lemma a2b_loop_b64encode (s : string) :
  a2b_loop (b64encode s) 0 0 0 = (0, s).
Proof.
  revert s. fix IH 1. intros [|a [|b [|c rest]]].
  - reflexivity.
  - apply decode_tail1.
  - apply decode_tail2.
  - cbn [b64encode]. rewrite decode_group, IH. reflexivity.
Qed.

(** Decoding inverts encoding. *)
Lemma b64decode_b64encode (s : string) : b64decode (b64encode s) = Ok s.
Proof. unfold b64decode. rewrite a2b_loop_b64encode. reflexivity. Qed.

End Base64Facts.

(** ** Facts on the token login backend *)
Module TokenFacts.
Local Open Scope string_scope.

Lemma append_assoc (s t v : string) : s ++ (t ++ v) = (s ++ t) ++ v.
Proof. induction s as [|c s IH]; [reflexivity|]. cbn. rewrite IH. reflexivity. Qed.

Lemma append_nil_r (s : string) : s ++ "" = s.
Proof. induction s as [|c s IH]; [reflexivity|]. cbn. rewrite IH. reflexivity. Qed.

Lemma contains_app (c : ascii) (s t : string) :
  contains c (s ++ t) = contains c s || contains c t.
Proof.
  induction s as [|d s IH]; [reflexivity|]. cbn. rewrite IH. apply orb_assoc.
Qed.

Lemma py_split_none (sep : ascii) (s : string) :
  contains sep s = false -> py_split sep s = [s].
Proof.
  induction s as [|c s IH]; [reflexivity|]. cbn. intros H.
  apply orb_false_iff in H as [H1 H2]. rewrite Ascii.eqb_sym, H1, IH by exact H2.
  reflexivity.
Qed.

Lemma py_split_pair (sep : ascii) (s t : string) :
  contains sep s = false -> contains sep t = false ->
  py_split sep (s ++ String sep t) = [s; t].
Proof.
  intros Hs Ht. induction s as [|c s IH]; cbn.
  - rewrite Ascii.eqb_refl, py_split_none by exact Ht. reflexivity.
  - cbn in Hs. apply orb_false_iff in Hs as [H1 H2].
    rewrite Ascii.eqb_sym, H1, IH by exact H2. reflexivity.
Qed.

End TokenFacts.

Module SampleTokensFacts.
Local Open Scope string_scope.
Import TokenFacts SampleTokens.

Lemma enc_nat_app (a b : nat) (r r' : string) :
  enc_nat a ++ r = enc_nat b ++ r' -> a = b /\ r = r'.
Proof.
  revert b. induction a as [|a IH]; intros [|b] H; cbn in H;
    inversion H as [H'].
  - auto.
  - destruct (IH b H') as [-> ->]. auto.
Qed.

Lemma enc_str_app (s s' r r' : string) :
  enc_str s ++ r = enc_str s' ++ r' -> s = s' /\ r = r'.
Proof.
  revert s' r r'. induction s as [|c s IH]; intros [|c' s'] r r' H; cbn in H.
  - inversion H. auto.
  - destruct (nat_of_ascii c'); discriminate H.
  - destruct (nat_of_ascii c); discriminate H.
  - rewrite <- !append_assoc in H. apply enc_nat_app in H as [Hc H].
    apply IH in H as [-> ->]. split; [|reflexivity]. f_equal.
    rewrite <- (ascii_nat_embedding c), <- (ascii_nat_embedding c'), Hc.
    reflexivity.
Qed.

Lemma make_token_inj (u u' : User) :
  make_token u = make_token u' -> user_state u = user_state u'.
Proof.
  unfold make_token, user_state. intros H.
  apply enc_nat_app in H as [Hi H]. apply enc_str_app in H as [Hp H].
  rewrite Hi, Hp. f_equal.
  destruct (last_login u) as [n|], (last_login u') as [m|]; cbn in H;
    try discriminate H; [|reflexivity].
  inversion H as [H']. pose proof (enc_nat_app n m "" "") as E.
  rewrite !append_nil_r in E. destruct (E H') as [-> _]. reflexivity.
Qed.

Lemma enc_nat_colon (n : nat) : contains ":" (enc_nat n) = false.
Proof. induction n; [reflexivity|exact IHn]. Qed.

Lemma enc_str_colon (s : string) : contains ":" (enc_str s) = false.
Proof.
  induction s as [|c s IH]; [reflexivity|]. cbn.
  rewrite TokenFacts.contains_app, enc_nat_colon, IH. reflexivity.
Qed.

Lemma make_token_colon (u : User) : contains ":" (make_token u) = false.
Proof.
  unfold make_token. rewrite !TokenFacts.contains_app, enc_nat_colon, enc_str_colon.
  destruct (last_login u); [apply enc_nat_colon|reflexivity].
Qed.

Lemma check_fresh (u : User) : check_token u (make_token u) = true.
Proof. apply String.eqb_refl. Qed.

Lemma check_bound (u u' : User) :
  user_state u' <> user_state u -> check_token u' (make_token u) = false.
Proof.
  intros Hne. unfold check_token. apply String.eqb_neq. intros He.
  apply Hne, make_token_inj. symmetry. exact He.
Qed.

End SampleTokensFacts.

(** ** Claims on the token login backend *)
Section TokenContract.
Local Open Scope string_scope.

Variable make_token : User -> string.
Variable check_token : User -> string -> bool.

(** Contract of [default_token_generator]: its tokens are made of base36
    digits, '-' and hex digits; a token checks against the state it was
    made from; it fails against any other id, password or last login. *)
Hypothesis token_no_colon : forall u, contains ":" (make_token u) = false.
Hypothesis check_fresh : forall u, check_token u (make_token u) = true.
Hypothesis check_bound : forall u u',
  user_state u' <> user_state u -> check_token u' (make_token u) = false.

(** C3: encoding a user with [get_auth_str] and passing the result to
    [TokenLoginBackend.authenticate] logs that user in; once the stored
    record of that username has another password or another last login,
    the same credential yields [None]. Usernames contain no ':' (Django's
    username validator allows only letters, digits and [_.@+-]). *)
Theorem token_login_roundtrip (users : list User) (u : User) :
  contains ":" (username u) = false ->
  get_by_username users (username u) = Ok u ->
  token_authenticate check_token users (get_auth_str make_token u) = Ok (Some u) /\
  (forall users' u',
     get_by_username users' (username u) = Ok u' ->
     password u' <> password u \/ last_login u' <> last_login u ->
     token_authenticate check_token users' (get_auth_str make_token u) = Ok None).
Proof.
  intros Hname Hget.
  assert (Hdec : Base64.b64decode (get_auth_str make_token u) =
                 Ok (username u ++ String ":" (make_token u))).
  { apply Base64Facts.b64decode_b64encode. }
  assert (Hin : contains ":" (username u ++ String ":" (make_token u)) = true).
  { rewrite TokenFacts.contains_app. cbn. rewrite orb_true_r. reflexivity. }
  assert (Hsplit : py_split ":" (username u ++ String ":" (make_token u)) =
                   [username u; make_token u]).
  { apply TokenFacts.py_split_pair; auto. }
  split.
  - unfold token_authenticate. rewrite Hdec, Hin, Hsplit, Hget. cbn.
    rewrite check_fresh. reflexivity.
  - intros users' u' Hget' Hchg.
    unfold token_authenticate. rewrite Hdec, Hin, Hsplit, Hget'. cbn.
    rewrite check_bound; [reflexivity|].
    unfold user_state. intros He. inversion He. tauto.
Qed.

End TokenContract.

(** C2 (defect): a credential whose decoding holds two ':' makes
    [decoded.split(':')] yield three parts, and the tuple unpacking
    [username, token = ...] raises [ValueError] instead of returning
    [None]. "YTpiOmM=" is base64 for "a:b:c". *)
Theorem token_authenticate_two_colons_raises :
  forall (check_token : User -> string -> bool) (users : list User),
  token_authenticate check_token users "YTpiOmM=" = Raise ValueError.
Proof. intros. reflexivity. Qed.

Lemma token_login_roundtrip_witness :
  token_authenticate SampleTokens.check_token [sample_user]
    (get_auth_str SampleTokens.make_token sample_user) = Ok (Some sample_user) /\
  (forall users' u',
     get_by_username users' (username sample_user) = Ok u' ->
     password u' <> password sample_user \/ last_login u' <> last_login sample_user ->
     token_authenticate SampleTokens.check_token users'
       (get_auth_str SampleTokens.make_token sample_user) = Ok None).
Proof.
  apply (token_login_roundtrip SampleTokens.make_token SampleTokens.check_token
           SampleTokensFacts.make_token_colon SampleTokensFacts.check_fresh
           SampleTokensFacts.check_bound [sample_user] sample_user);
    reflexivity.
Defined.

(** ** Claims on the OIDC backends *)
Module DispatchClaims.

Lemma proceeds_not_declines
    (backend : (option Request -> option User) -> option Request -> option User)
    (request : option Request) :
  proceeds backend request -> declines backend request -> False.
Proof.
  intros Hp Hd. specialize (Hp (fun _ => Some sample_user)).
  rewrite Hd in Hp. discriminate Hp.
Qed.

(** C1: for a request with a path, exactly one of the two backends
    proceeds: [SumoOIDCAuthBackend] when the path is the OIDC callback
    route, [FXAAuthBackend] on every other path; the other returns
    [None]. *)
Theorem oidc_backends_exactly_one (oidc_callback_path : string) (r : Request) :
  (String.eqb (path r) oidc_callback_path = true /\
   proceeds (sumo_authenticate oidc_callback_path) (Some r) /\
   declines (fxa_authenticate oidc_callback_path) (Some r)) \/
  (String.eqb (path r) oidc_callback_path = false /\
   declines (sumo_authenticate oidc_callback_path) (Some r) /\
   proceeds (fxa_authenticate oidc_callback_path) (Some r)).
Proof.
  unfold proceeds, declines, sumo_authenticate, fxa_authenticate.
  destruct (String.eqb (path r) oidc_callback_path); cbn; [left|right]; auto.
Qed.

(** C10: without a request object ([request=None]) neither backend
    declines: both hand the call to the base flow. *)
Theorem oidc_backends_no_request (oidc_callback_path : string) :
  proceeds (sumo_authenticate oidc_callback_path) None /\
  proceeds (fxa_authenticate oidc_callback_path) None /\
  ~ declines (sumo_authenticate oidc_callback_path) None /\
  ~ declines (fxa_authenticate oidc_callback_path) None.
Proof.
  assert (Hs : proceeds (sumo_authenticate oidc_callback_path) None)
    by (intros sup; reflexivity).
  assert (Hf : proceeds (fxa_authenticate oidc_callback_path) None)
    by (intros sup; reflexivity).
  repeat split; auto; intros Hd; eapply proceeds_not_declines; eauto.
Qed.

End DispatchClaims.

(** ** Claims on the Firefox Accounts backend *)
Module FxaClaims.

(** C4: [filter_users_by_claims] returns the candidates in the spec's
    order; without a UID it logs a warning and returns none. Nothing
    else in the state changes. *)
Theorem filter_users_by_claims_order
    (request : option Request) (base : Claims -> DB -> list User)
    (claims : Claims) (st : State) :
  filter_users_by_claims request base claims st =
  (Ok (candidates_spec (uid_present claims) (session_user_of request)
         (users_by_fxa_uid (st_db st) (get_str (c_uid claims)))
         (base claims (st_db st))),
   if uid_present claims then st
   else mkState (st_db st) (st_session st) (st_messages st)
          (st_log st ++ [(Warning, "Failed to get Firefox Account UID.")]) (st_http st)).
Proof.
  unfold filter_users_by_claims, candidates_spec, uid_present, session_user_of.
  destruct (c_uid claims) as [[|c rest]|]; cbn; try reflexivity.
  destruct request as [r|]; cbn.
  - destruct (req_user r); cbn; [|reflexivity].
    unfold bind, gets. destruct (users_by_fxa_uid (st_db st) (String c rest)); reflexivity.
  - unfold bind, gets. destruct (users_by_fxa_uid (st_db st) (String c rest)); reflexivity.
Qed.

Lemma option_string_eqb_refl (x : option string) : option_string_eqb x x = true.
Proof. destruct x; cbn; [apply String.eqb_refl|reflexivity]. Qed.

Lemma uid_taken_existsb (db : DB) (x : option string) :
  (exists p, In p (db_profiles db) /\ fxa_uid p = x) ->
  existsb (fun p => option_string_eqb (fxa_uid p) x) (db_profiles db) = true.
Proof.
  intros [p [Hin Hp]]. apply existsb_exists. exists p. split; [exact Hin|].
  rewrite Hp. apply option_string_eqb_refl.
Qed.

Lemma email_taken_existsb (db : DB) (id : nat) (e : string) :
  (exists u', In u' (db_users db) /\ user_id u' <> id /\ email u' = e) ->
  existsb (fun u => negb (Nat.eqb (user_id u) id) && String.eqb (email u) e)
    (db_users db) = true.
Proof.
  intros [u' [Hin [Hid He]]]. apply existsb_exists. exists u'. split; [exact Hin|].
  apply andb_true_iff. split.
  - apply negb_true_iff, Nat.eqb_neq, Hid.
  - apply String.eqb_eq, He.
Qed.

Lemma find_map_replace (us : list User) (u : User) :
  existsb (fun v => Nat.eqb (user_id v) (user_id u)) us = true ->
  find (fun v => Nat.eqb (user_id v) (user_id u))
    (map (fun v => if Nat.eqb (user_id v) (user_id u) then u else v) us) = Some u.
Proof.
  induction us as [|v us IH]; cbn; [discriminate|].
  destruct (Nat.eqb (user_id v) (user_id u)) eqn:E; cbn.
  - rewrite Nat.eqb_refl. reflexivity.
  - rewrite E. exact IH.
Qed.

Lemma find_app_none (us : list User) (u : User) :
  existsb (fun v => Nat.eqb (user_id v) (user_id u)) us = false ->
  find (fun v => Nat.eqb (user_id v) (user_id u)) (us ++ [u]) = Some u.
Proof.
  induction us as [|v us IH]; cbn.
  - rewrite Nat.eqb_refl. reflexivity.
  - destruct (Nat.eqb (user_id v) (user_id u)); [discriminate|exact IH].
Qed.

(** After [user.save()], the stored record with the user's id is the user. *)
Lemma user_by_id_save (db : DB) (u : User) :
  user_by_id (save_user_db db u) (user_id u) = Some u.
Proof.
  unfold save_user_db, user_by_id.
  destruct (existsb (fun v => Nat.eqb (user_id v) (user_id u)) (db_users db)) eqn:E;
    cbn; [apply find_map_replace|apply find_app_none]; exact E.
Qed.

Lemma user_by_id_users (db db' : DB) (id : nat) :
  db_users db = db_users db' -> user_by_id db id = user_by_id db' id.
Proof. unfold user_by_id. intros ->. reflexivity. Qed.

Lemma save_profile_db_users (db : DB) (p : Profile) :
  db_users (save_profile_db db p) = db_users db.
Proof. unfold save_profile_db. destruct (existsb _ _); reflexivity. Qed.

Lemma save_profile_db_links (db : DB) (p : Profile) :
  db_profile_products (save_profile_db db p) = db_profile_products db.
Proof. unfold save_profile_db. destruct (existsb _ _); reflexivity. Qed.

Lemma save_profile_db_products (db : DB) (p : Profile) :
  db_products (save_profile_db db p) = db_products db.
Proof. unfold save_profile_db. destruct (existsb _ _); reflexivity. Qed.

Lemma save_user_db_links (db : DB) (u : User) :
  db_profile_products (save_user_db db u) = db_profile_products db.
Proof. unfold save_user_db. destruct (existsb _ _); reflexivity. Qed.

Lemma save_user_db_products (db : DB) (u : User) :
  db_products (save_user_db db u) = db_products db.
Proof. unfold save_user_db. destruct (existsb _ _); reflexivity. Qed.

Lemma save_user_db_users (db db' : DB) (u : User) :
  db_users db = db_users db' -> db_users (save_user_db db u) = db_users (save_user_db db' u).
Proof. unfold save_user_db. intros ->. destruct (existsb _ _); reflexivity. Qed.

(** The tail of [update_user] succeeds, and its only change to the user
    table is the save of a changed user. *)
Lemma update_user_finish_users (r : option Request) (claims : Claims) (user : User)
    (profile : Profile) (changed : bool) (st : State) :
  uid_conflict (st_db st) profile = false ->
  fst (update_user_finish claims user profile changed st) = Ok (Some user) /\
  db_users (st_db (snd (update_user_finish claims user profile changed st))) =
  db_users (if changed then save_user_db (st_db st) user else st_db st).
Proof.
  intros Hc.
  destruct changed; destruct (String.eqb (name profile) "") eqn:En; run_finish;
    rewrite ?En; autorewrite with tables;
    rewrite (TableFacts.uid_conflict_key _ profile) by reflexivity; rewrite Hc;
    (split; [reflexivity|]); cbn [snd st_db set_db];
    rewrite save_profile_db_users; try apply save_user_db_users; reflexivity.
Qed.

(** C5: each conflict rejection of [update_user] returns [None], ends
    with an error message and leaves every table as it was. *)
Theorem update_user_conflicts_atomic
    (r : Request) (edit_url : string) (user : User) (claims : Claims)
    (st : State) (profile : Profile) :
  profile_of (st_db st) (user_id user) = Some profile ->
  (is_fxa_migrated profile = false /\
   exists p, In p (db_profiles (st_db st)) /\ prof_user p <> user_id user /\
             fxa_uid p = c_uid claims) \/
  (email user <> c_email claims /\ is_staff user = false /\
   exists u', In u' (db_users (st_db st)) /\ user_id u' <> user_id user /\
              email u' = c_email claims) ->
  let (res, st') := update_user (Some r) edit_url user claims st in
  res = Ok None /\ st_db st' = st_db st /\
  exists pre msg, st_messages st' = st_messages st ++ pre ++ [(Error, msg)].
Proof.
  intros Hprof Hconf.
  assert (Hemail : (email user <> c_email claims /\ is_staff user = false /\
     exists u', In u' (db_users (st_db st)) /\ user_id u' <> user_id user /\
                email u' = c_email claims) ->
     forall st0 profile0, st_db st0 = st_db st ->
     (exists pre0, st_messages st0 = st_messages st ++ pre0) ->
     let (res, st') := (if negb (String.eqb (email user) (c_email claims)) &&
                           negb (is_staff user) then
        bind (email_taken (user_id user) (c_email claims)) (fun taken =>
        if taken then
          bind (message (Some r) Error ("The email used with this Firefox Account is already " ++
                              "linked in another profile.")%string) (fun _ => ret None)
        else update_user_finish claims (mkUser (user_id user) (username user) (c_email claims)
                 (password user) (last_login user) (is_staff user)) profile0 true)
       else update_user_finish claims user profile0 false) st0 in
     res = Ok None /\ st_db st' = st_db st /\
     exists pre msg, st_messages st' = st_messages st ++ pre ++ [(Error, msg)]).
  { intros [He [Hs Ht]] st0 profile0 Hdb [pre0 Hpre].
    apply String.eqb_neq in He. rewrite He, Hs. cbn.
    unfold bind, email_taken, gets. rewrite Hdb, (email_taken_existsb _ _ _ Ht). cbn.
    split; [reflexivity|split; [exact Hdb|]]. rewrite Hpre, <- app_assoc.
    eexists pre0, _. reflexivity. }
  unfold update_user. unfold bind at 1. unfold user_profile. rewrite Hprof.
  cbn zeta. destruct (is_fxa_migrated profile) eqn:Hm.
  - destruct Hconf as [[Hf _]|Hconf]; [discriminate Hf|].
    cbn. exact (Hemail Hconf st profile eq_refl (ex_intro _ [] (eq_sym (app_nil_r _)))).
  - unfold bind at 1, profile_exists_uid, gets at 1. cbn.
    destruct (existsb (fun p => option_string_eqb (fxa_uid p) (c_uid claims))
                (db_profiles (st_db st))) eqn:Hu.
    + unfold bind, message, the_request, add_message, modify, ret. cbn.
      split; [reflexivity|split; [reflexivity|]]. eexists [], _. reflexivity.
    + destruct Hconf as [[_ [p [Hin [_ Hp]]]]|Hconf].
      { rewrite uid_taken_existsb in Hu; [discriminate Hu|]. exists p; auto. }
      exact (Hemail Hconf
               (mkState (st_db st) (mkSession (Some edit_url) (is_contributor (st_session st)))
                  (st_messages st ++ [(Info, "fxa_notification_updated")])
                  (st_log st) (st_http st))
               _ eq_refl (ex_intro _ _ eq_refl)).
Qed.

End FxaClaims.

Module FxaClaims2.
Import FxaClaims.

(** C6 (amended): the UID check of [update_user] comes first: when the
    profile is not migrated and some profile already holds the claimed
    UID, the call returns [None] and the stored email is left as it was.
    Past that check, the stored email becomes the claimed one exactly
    when it differs, the user's [is_staff] flag is unset and no other
    user holds it; otherwise it is left as it was (in particular for a
    staff user). The stored UID of a migrated profile is held by no other
    profile, as the unique [fxa_uid] column guarantees. *)
Theorem update_user_email_sync
    (r : Request) (edit_url : string) (user : User) (claims : Claims)
    (st : State) (profile : Profile) :
  profile_of (st_db st) (user_id user) = Some profile ->
  user_by_id (st_db st) (user_id user) = Some user ->
  (is_fxa_migrated profile = true -> uid_conflict (st_db st) profile = false) ->
  let uid_taken := existsb (fun p => option_string_eqb (fxa_uid p) (c_uid claims))
                           (db_profiles (st_db st)) in
  let change := negb (String.eqb (email user) (c_email claims)) && negb (is_staff user) in
  let taken := existsb (fun u => negb (Nat.eqb (user_id u) (user_id user)) &&
                                 String.eqb (email u) (c_email claims))
                       (db_users (st_db st)) in
  let out := update_user (Some r) edit_url user claims st in
  option_map email (user_by_id (st_db (snd out)) (user_id user)) =
  Some (if negb (is_fxa_migrated profile) && uid_taken then email user
        else if change && negb taken then c_email claims else email user) /\
  (is_fxa_migrated profile = false -> uid_taken = true -> fst out = Ok None).
Proof.
  intros Hprof Huser Hmig. cbn zeta.
  set (user' := mkUser (user_id user) (username user) (c_email claims) (password user)
                  (last_login user) (is_staff user)).
  (* the email part, from any state with the same tables *)
  assert (Hemail : forall st0 profile0, st_db st0 = st_db st ->
    uid_conflict (st_db st) profile0 = false ->
    option_map email (user_by_id (st_db (snd
      ((if negb (String.eqb (email user) (c_email claims)) && negb (is_staff user) then
          bind (email_taken (user_id user) (c_email claims)) (fun taken =>
          if taken then
            bind (message (Some r) Error ("The email used with this Firefox Account is already " ++
                                "linked in another profile.")%string) (fun _ => ret None)
          else update_user_finish claims user' profile0 true)
        else update_user_finish claims user profile0 false) st0))) (user_id user)) =
    Some (if negb (String.eqb (email user) (c_email claims)) && negb (is_staff user) &&
             negb (existsb (fun u => negb (Nat.eqb (user_id u) (user_id user)) &&
                                     String.eqb (email u) (c_email claims))
                           (db_users (st_db st)))
          then c_email claims else email user)).
  { intros st0 profile0 Hdb Hc. rewrite <- Hdb in Hc.
    destruct (negb (String.eqb (email user) (c_email claims)) && negb (is_staff user)).
    - unfold bind at 1, email_taken, gets. rewrite Hdb. cbn -[update_user_finish].
      destruct (existsb _ (db_users (st_db st))).
      + cbn. unfold user_by_id in *. rewrite Hdb, Huser. reflexivity.
      + pose proof (update_user_finish_users (Some r) claims user' profile0 true st0 Hc)
          as [_ Hu]. rewrite (user_by_id_users _ _ _ Hu).
        change (user_id user) with (user_id user').
        rewrite (user_by_id_save (st_db st0) user'). reflexivity.
    - pose proof (update_user_finish_users (Some r) claims user profile0 false st0 Hc)
        as [_ Hu].
      rewrite (user_by_id_users _ _ _ Hu). cbn. rewrite Hdb, Huser. reflexivity. }
  split.
  2:{ intros Hm Hu. unfold update_user, bind at 1, user_profile. rewrite Hprof.
      cbn zeta. rewrite Hm. unfold bind at 1, profile_exists_uid, gets at 1.
      cbn -[update_user_finish]. rewrite Hu. reflexivity. }
  unfold update_user. unfold bind at 1. unfold user_profile. rewrite Hprof.
  cbn zeta. destruct (is_fxa_migrated profile) eqn:Hm.
  - cbn -[update_user_finish]. exact (Hemail st profile eq_refl (Hmig eq_refl)).
  - unfold bind at 1, profile_exists_uid, gets at 1. cbn -[update_user_finish].
    destruct (existsb (fun p => option_string_eqb (fxa_uid p) (c_uid claims))
                (db_profiles (st_db st))) eqn:Hu.
    + cbn. rewrite Huser. reflexivity.
    + apply (Hemail
               (mkState (st_db st) (mkSession (Some edit_url) (is_contributor (st_session st)))
                  (st_messages st ++ [(Info, "fxa_notification_updated")])
                  (st_log st) (st_http st))
               _ eq_refl).
      unfold uid_conflict. cbn [fxa_uid prof_user].
      destruct (c_uid claims) as [x|]; [|reflexivity].
      apply not_true_iff_false. intros Hx. apply existsb_exists in Hx.
      destruct Hx as [q [Hq Hx]]. apply andb_true_iff in Hx as [_ Hx].
      rewrite <- not_true_iff_false in Hu. apply Hu, existsb_exists. exists q. auto.
Qed.

End FxaClaims2.

Lemma update_user_conflicts_atomic_witness :
  let (res, st') := update_user (Some Sample.request) "/users/edit" Sample.bob
                      Sample.claims_uidX Sample.state in
  res = Ok None /\ st_db st' = st_db Sample.state /\
  exists pre msg, st_messages st' = st_messages Sample.state ++ pre ++ [(Error, msg)].
Proof.
  refine (FxaClaims.update_user_conflicts_atomic Sample.request "/users/edit" Sample.bob
            Sample.claims_uidX Sample.state Sample.bob_profile _ _).
  - reflexivity.
  - left. split; [reflexivity|]. exists Sample.eve_profile.
    split; [cbn; auto|split; [discriminate|reflexivity]].
Defined.

(** C6 fails as stated: Bob is not staff, his claimed email differs
    from the stored one and nobody holds it, yet his stored email is not
    updated, because the claimed UID is already Eve's and the UID check
    rejects the call first. *)
Lemma update_user_email_kept_on_uid_conflict :
  let out := update_user (Some Sample.request) "/users/edit" Sample.bob
               Sample.claims_uidX Sample.state in
  email Sample.bob <> c_email Sample.claims_uidX /\
  is_staff Sample.bob = false /\
  existsb (fun u => negb (Nat.eqb (user_id u) (user_id Sample.bob)) &&
                    String.eqb (email u) (c_email Sample.claims_uidX))
          (db_users Sample.db) = false /\
  option_map email (user_by_id (st_db (snd out)) (user_id Sample.bob)) =
    Some "bob@example.com" /\
  fst out = Ok None.
Proof.
  vm_compute. split; [discriminate|]. repeat split.
Qed.

Lemma update_user_email_sync_witness :
  option_map email (user_by_id (st_db (snd (update_user (Some Sample.request) "/users/edit"
      Sample.bob Sample.claims_fresh Sample.state))) (user_id Sample.bob)) =
  Some "bob.new@example.com".
Proof.
  pose proof (FxaClaims2.update_user_email_sync Sample.request "/users/edit" Sample.bob
            Sample.claims_fresh Sample.state Sample.bob_profile) as H.
  cbv zeta in H. destruct H as [H _].
  - reflexivity.
  - reflexivity.
  - intros Hm. vm_compute in Hm. discriminate Hm.
  - rewrite H. vm_compute. reflexivity.
Defined.

(** ** Facts on the products relation *)
Module ProductFacts.

Lemma link_eqb_true (l l' : nat * nat) : link_eqb l l' = true -> l = l'.
Proof.
  destruct l as [a b], l' as [c d]. unfold link_eqb. cbn.
  rewrite andb_true_iff, !Nat.eqb_eq. intros [-> ->]. reflexivity.
Qed.

(** [profile.products.add( *ps)] adds exactly the links of [ps]. *)
Lemma in_products_add (key : nat) (ps : list Product) (ls : list (nat * nat)) (l : nat * nat) :
  In l (fold_left (fun ls p => if existsb (link_eqb (key, product_id p)) ls then ls
                               else ls ++ [(key, product_id p)]) ps ls) <->
  In l ls \/ exists p, In p ps /\ l = (key, product_id p).
Proof.
  revert ls. induction ps as [|p ps IH]; intros ls; cbn.
  - split; [left; exact H|]. intros [H|[p [[] _]]]; exact H.
  - rewrite IH. destruct (existsb (link_eqb (key, product_id p)) ls) eqn:E.
    + apply existsb_exists in E. destruct E as [l0 [Hl0 E]]. apply link_eqb_true in E.
      subst l0. split.
      * intros [H|[q [Hq ->]]]; [left; exact H|right; exists q; auto].
      * intros [H|[q [[<-|Hq] ->]]]; [left; exact H|left; exact Hl0|right; exists q; auto].
    + rewrite in_app_iff. cbn. split.
      * intros [[H|[<-|[]]]|[q [Hq ->]]]; [left; exact H|right; exists p; auto|right; exists q; auto].
      * intros [H|[q [[<-|Hq] ->]]]; [left; left; exact H|left; right; left; reflexivity|
                                       right; exists q; auto].
Qed.

Lemma in_linked_products (db : DB) (key pid : nat) :
  In pid (linked_products db key) <-> In (key, pid) (db_profile_products db).
Proof.
  unfold linked_products. rewrite in_map_iff. split.
  - intros [[k x] [Hx Hin]]. apply filter_In in Hin. destruct Hin as [Hin Hk].
    cbn in Hx, Hk. apply Nat.eqb_eq in Hk. subst. exact Hin.
  - intros Hin. exists (key, pid). split; [reflexivity|]. apply filter_In.
    split; [exact Hin|apply Nat.eqb_refl].
Qed.

(** Clearing then adding: the profile's products are exactly those of
    the filter, whatever was linked before. *)
Lemma linked_after_replace (db : DB) (key : nat) (subs : list string) (pid : nat) :
  In pid (linked_products (products_add_db (products_clear_db db key) key
                             (products_by_codename db subs)) key) <->
  exists p, In p (db_products db) /\ product_id p = pid /\ In (codename p) subs.
Proof.
  rewrite in_linked_products. unfold products_add_db. cbn [db_profile_products with_links].
  rewrite in_products_add. unfold products_clear_db. cbn [db_profile_products with_links].
  rewrite filter_In. cbn [fst]. rewrite Nat.eqb_refl. split.
  - intros [[_ Hf]|[p [Hp Hl]]]; [discriminate Hf|]. injection Hl as ->.
    unfold products_by_codename in Hp. apply filter_In in Hp. destruct Hp as [Hp Hc].
    apply existsb_exists in Hc. destruct Hc as [c [Hc Hcc]]. apply String.eqb_eq in Hcc.
    subst c. exists p. auto.
  - intros [p [Hp [<- Hc]]]. right. exists p. split; [|reflexivity].
    unfold products_by_codename. apply filter_In. split; [exact Hp|].
    apply existsb_exists. exists (codename p). split; [exact Hc|apply String.eqb_refl].
Qed.

End ProductFacts.
(** ** Facts on [create_user] *)
Module CreateFacts.

Lemma py_split_first (sep : ascii) (s t : string) :
  contains sep s = false -> py_split sep (s ++ String sep t) = s :: py_split sep t.
Proof.
  induction s as [|c s IH]; cbn; intros H.
  - rewrite Ascii.eqb_refl. reflexivity.
  - apply orb_false_iff in H as [H1 H2]. rewrite Ascii.eqb_sym, H1, IH by exact H2.
    reflexivity.
Qed.

Lemma fold_max_bound (us : list User) (m : nat) :
  (m <= fold_left (fun m u => Nat.max m (user_id u)) us m /\
   forall v, In v us -> user_id v <= fold_left (fun m u => Nat.max m (user_id u)) us m)%nat.
Proof.
  revert m. induction us as [|w us IH]; intros m; cbn.
  - split; [lia|intros v []].
  - destruct (IH (Nat.max m (user_id w))) as [H1 H2]. split; [lia|].
    intros v [<-|Hv]; [lia|exact (H2 v Hv)].
Qed.

(** No stored user has the id [create_user] hands out. *)
Lemma fresh_user_id_unused (db : DB) :
  existsb (fun v => Nat.eqb (user_id v) (fresh_user_id db)) (db_users db) = false.
Proof.
  apply not_true_iff_false. intros H. apply existsb_exists in H.
  destruct H as [v [Hv Heq]]. apply Nat.eqb_eq in Heq.
  destruct (fold_max_bound (db_users db) 0) as [_ H]. specialize (H v Hv).
  unfold fresh_user_id in Heq. lia.
Qed.

Lemma find_existsb_false {A} (f : A -> bool) (l : list A) :
  existsb f l = false -> find f l = None.
Proof.
  induction l as [|x l IH]; cbn; [reflexivity|].
  destruct (f x); [discriminate|exact IH].
Qed.

Lemma user_by_id_fresh (db : DB) : user_by_id db (fresh_user_id db) = None.
Proof. apply find_existsb_false, fresh_user_id_unused. Qed.

Lemma profile_of_profiles (db db' : DB) (id : nat) :
  db_profiles db = db_profiles db' -> profile_of db id = profile_of db' id.
Proof. unfold profile_of. intros ->. reflexivity. Qed.

(** After [profile.save()], the stored profile of its user is that profile. *)
Lemma profile_of_save (db : DB) (p : Profile) :
  profile_of (save_profile_db db p) (prof_user p) = Some p.
Proof.
  unfold save_profile_db, profile_of.
  destruct (existsb (fun q => Nat.eqb (prof_user q) (prof_user p)) (db_profiles db)) eqn:E;
    cbn; induction (db_profiles db) as [|q ps IH]; cbn in *; try discriminate.
  - destruct (Nat.eqb (prof_user q) (prof_user p)) eqn:Eq; cbn.
    + rewrite Nat.eqb_refl. reflexivity.
    + rewrite Eq. exact (IH E).
  - rewrite Nat.eqb_refl. reflexivity.
  - destruct (Nat.eqb (prof_user q) (prof_user p)); [discriminate|exact (IH E)].
Qed.
(** The profile [create_user] may add under the new id does not count
    against the migrated profile it saves for that id. *)
Lemma uid_conflict_fresh (db db2 : DB) (p : Profile) :
  (db_profiles db2 = db_profiles db \/
   exists d, prof_user d = prof_user p /\ db_profiles db2 = db_profiles db ++ [d]) ->
  uid_conflict db2 p = uid_conflict db p.
Proof.
  intros [E|[d [Hd E]]]; [apply TableFacts.uid_conflict_profiles, E|].
  rewrite <- (TableFacts.uid_conflict_append_same db d p Hd).
  apply TableFacts.uid_conflict_profiles. rewrite E. reflexivity.
Qed.

(** No stored profile holding the UID [x] means no conflict for a
    profile with that UID. *)
Lemma uid_conflict_unheld (db : DB) (x : option string) :
  (forall q, In q (db_profiles db) -> x = None \/ fxa_uid q <> x) ->
  forall p, fxa_uid p = x -> uid_conflict db p = false.
Proof.
  intros H p Hpx. unfold uid_conflict. rewrite Hpx. destruct x as [x|]; [|reflexivity].
  apply not_true_iff_false. intros Hx. apply existsb_exists in Hx.
  destruct Hx as [q [Hq Hx]]. apply andb_true_iff in Hx as [_ Hx].
  destruct (H q Hq) as [Hn|Hn]; [discriminate|]. apply Hn.
  destruct (fxa_uid q) as [y|]; [|discriminate]. cbn in Hx.
  apply String.eqb_eq in Hx. subst y. reflexivity.
Qed.

(** One run of [create_user] with a request, when the computed username
    is non-empty and free and no other profile holds the claimed UID:
    the user it creates and the tables it leaves. *)
Lemma create_user_run (settings : Settings) (r : Request) (edit_url : string)
    (ua : string -> string) (claims : Claims) (st : State) :
  let db := st_db st in
  let u := mkUser (fresh_user_id db) (ua (c_email claims)) (normalize_email (c_email claims))
             "!" None false in
  let loc := if existsb (String.eqb (fxa_locale_of claims)) (SUMO_LANGUAGES settings)
             then fxa_locale_of claims else LANGUAGE_CODE settings in
  let p := mkProfile (user_id u) true (c_uid claims) (get_str (c_avatar claims))
             (get_str (c_displayName claims)) loc in
  String.eqb (ua (c_email claims)) "" = false ->
  existsb (fun v => String.eqb (username v) (ua (c_email claims))) (db_users db) = false ->
  uid_conflict db p = false ->
  exists db2 st',
    create_user settings (Some r) edit_url ua claims st = (Ok u, st') /\
    db_users db2 = db_users db ++ [u] /\ db_products db2 = db_products db /\
    let db3 := save_profile_db db2 p in
    let db4 := products_add_db (products_clear_db db3 (user_id u)) (user_id u)
                 (products_by_codename db3 (get_subscriptions claims)) in
    db_users (st_db st') = db_users db4 /\ db_profiles (st_db st') = db_profiles db4 /\
    db_products (st_db st') = db_products db4 /\
    db_profile_products (st_db st') = db_profile_products db4.
Proof.
  cbv zeta. intros Hn Ht Hc. cbn [user_id] in Hc.
  unfold create_user, bind at 1, base_create_user. cbn beta iota zeta.
  rewrite Hn, Ht.
  unfold bind at 1, profile_get_or_create. cbn beta iota zeta.
  unfold set_db at 1. cbn [st_db user_id].
  destruct (profile_of _ _) as [p0|] eqn:Hp.
  - assert (Hk : prof_user p0 = fresh_user_id (st_db st)).
    { unfold profile_of in Hp. apply find_some in Hp. destruct Hp as [_ Hp].
      apply Nat.eqb_eq in Hp. exact Hp. }
    exists (with_users (st_db st) (db_users (st_db st) ++
      [mkUser (fresh_user_id (st_db st)) (ua (c_email claims))
         (normalize_email (c_email claims)) "!" None false])).
    cbn beta iota zeta. rewrite Hk. unfold bind at 1, save_profile.
    rewrite (uid_conflict_fresh (st_db st)) by (left; reflexivity). rewrite Hc.
    destruct (is_contributor (st_session st)) as [[|]|] eqn:Hcb;
      (eexists; split; [cbn; rewrite Hcb; reflexivity|]; repeat split).
  - exists (with_profiles (with_users (st_db st) (db_users (st_db st) ++
      [mkUser (fresh_user_id (st_db st)) (ua (c_email claims))
         (normalize_email (c_email claims)) "!" None false]))
              (db_profiles (st_db st) ++
               [mkProfile (fresh_user_id (st_db st)) false None "" "" (LANGUAGE_CODE settings)])).
    cbn beta iota zeta. unfold bind at 1, save_profile.
    rewrite (uid_conflict_fresh (st_db st))
      by (right; eexists; split; [|reflexivity]; reflexivity).
    cbn [prof_user]. rewrite Hc.
    destruct (is_contributor (st_session st)) as [[|]|] eqn:Hcb;
      (eexists; split; [cbn; rewrite Hcb; reflexivity|]; repeat split).
Qed.

(** The three ways [create_user] fails before it reaches the request:
    an empty username, a username already taken (nothing stored in
    either case), and a claimed UID held by another profile (raised by
    the profile save, after the user row is stored). *)
Lemma create_user_rejects (settings : Settings) (req : option Request) (edit_url : string)
    (ua : string -> string) (claims : Claims) (st : State) :
  let db := st_db st in
  let uname := ua (c_email claims) in
  let u := mkUser (fresh_user_id db) uname (normalize_email (c_email claims)) "!" None false in
  let loc := if existsb (String.eqb (fxa_locale_of claims)) (SUMO_LANGUAGES settings)
             then fxa_locale_of claims else LANGUAGE_CODE settings in
  let p := mkProfile (fresh_user_id db) true (c_uid claims) (get_str (c_avatar claims))
             (get_str (c_displayName claims)) loc in
  (String.eqb uname "" = true ->
   create_user settings req edit_url ua claims st = (Raise ValueError, st)) /\
  (String.eqb uname "" = false ->
   existsb (fun v => String.eqb (username v) uname) (db_users db) = true ->
   create_user settings req edit_url ua claims st = (Raise IntegrityError, st)) /\
  (String.eqb uname "" = false ->
   existsb (fun v => String.eqb (username v) uname) (db_users db) = false ->
   uid_conflict db p = true ->
   fst (create_user settings req edit_url ua claims st) = Raise IntegrityError /\
   user_by_id (st_db (snd (create_user settings req edit_url ua claims st)))
     (fresh_user_id db) = Some u).
Proof.
  cbv zeta.
  split; [|split].
  - intros Hn. unfold create_user, bind at 1, base_create_user. cbn beta iota zeta.
    rewrite Hn. reflexivity.
  - intros Hn Ht. unfold create_user, bind at 1, base_create_user. cbn beta iota zeta.
    rewrite Hn, Ht. reflexivity.
  - intros Hn Ht Hc.
    enough (E : exists st', create_user settings req edit_url ua claims st =
                              (Raise IntegrityError, st') /\
              user_by_id (st_db st') (fresh_user_id (st_db st)) =
              Some (mkUser (fresh_user_id (st_db st)) (ua (c_email claims))
                      (normalize_email (c_email claims)) "!" None false))
      by (destruct E as [st' [E1 E2]]; rewrite E1; split; [reflexivity|exact E2]).
    unfold create_user, bind at 1, base_create_user. cbn beta iota zeta.
    rewrite Hn, Ht.
    unfold bind at 1, profile_get_or_create. cbn beta iota zeta.
    unfold set_db at 1. cbn [st_db user_id].
    destruct (profile_of _ _) as [p0|] eqn:Hp.
    + assert (Hk : prof_user p0 = fresh_user_id (st_db st)).
      { unfold profile_of in Hp. apply find_some in Hp. destruct Hp as [_ Hp].
        apply Nat.eqb_eq in Hp. exact Hp. }
      cbn beta iota zeta. rewrite Hk. unfold bind at 1, save_profile.
      rewrite (uid_conflict_fresh (st_db st)) by (left; reflexivity). rewrite Hc.
      eexists. split; [reflexivity|].
      unfold user_by_id. cbn [with_users db_users st_db].
      exact (FxaClaims.find_app_none _ (mkUser _ _ _ _ _ _) (fresh_user_id_unused _)).
    + cbn beta iota zeta. unfold bind at 1, save_profile.
      rewrite (uid_conflict_fresh (st_db st))
        by (right; eexists; split; [|reflexivity]; reflexivity).
      cbn [prof_user]. rewrite Hc. eexists. split; [reflexivity|].
      unfold user_by_id. cbn [with_users with_profiles db_users st_db].
      exact (FxaClaims.find_app_none _ (mkUser _ _ _ _ _ _) (fresh_user_id_unused _)).
Qed.
End CreateFacts.

Module CreateClaims.
Import CreateFacts.

(** C7: with a request present, when the computed username is non-empty
    and no stored user has it, and no stored profile holds the claimed
    UID, [create_user] creates a user with an id no stored user had, and
    a profile for it that is migrated, stores the claimed UID, and has as
    locale the first locale of the claims (the text before the first
    comma) when it is among [SUMO_LANGUAGES], and [LANGUAGE_CODE]
    otherwise, in particular when the claims carry no locale. *)
Theorem create_user_migrated_profile (settings : Settings) (r : Request) (edit_url : string)
    (username_algo : string -> string) (claims : Claims) (st : State)
    (Hname : String.eqb (username_algo (c_email claims)) "" = false)
    (Hfree : existsb (fun v => String.eqb (username v) (username_algo (c_email claims)))
               (db_users (st_db st)) = false)
    (Huid : forall q, In q (db_profiles (st_db st)) ->
            c_uid claims = None \/ fxa_uid q <> c_uid claims) :
  let (res, st') := create_user settings (Some r) edit_url username_algo claims st in
  exists u p,
    res = Ok u /\
    user_by_id (st_db st) (user_id u) = None /\
    user_by_id (st_db st') (user_id u) = Some u /\
    profile_of (st_db st') (user_id u) = Some p /\
    is_fxa_migrated p = true /\ fxa_uid p = c_uid claims /\
    (forall first rest,
       (c_locale claims = Some first \/ c_locale claims = Some (first ++ String "," rest)%string) ->
       contains "," first = false ->
       (In first (SUMO_LANGUAGES settings) -> locale p = first) /\
       (~ In first (SUMO_LANGUAGES settings) -> locale p = LANGUAGE_CODE settings)) /\
    (c_locale claims = None -> ~ In "" (SUMO_LANGUAGES settings) ->
     locale p = LANGUAGE_CODE settings).
Proof.
  destruct (create_user_run settings r edit_url username_algo claims st Hname Hfree
              (uid_conflict_unheld _ _ Huid (mkProfile _ _ (c_uid claims) _ _ _) eq_refl))
    as [db2 [st' [Hrun [Hu2 [Hp2 [Hu4 [Hpr4 [Hprod4 Hl4]]]]]]]].
  rewrite Hrun. eexists _, _. split; [reflexivity|].
  split; [apply user_by_id_fresh|].
  split.
  { rewrite (FxaClaims.user_by_id_users _ _ _ Hu4).
    unfold user_by_id, products_add_db, products_clear_db, with_links. cbn [db_users].
    rewrite FxaClaims.save_profile_db_users, Hu2. apply FxaClaims.find_app_none, fresh_user_id_unused. }
  split.
  { rewrite (profile_of_profiles _ _ _ Hpr4). exact (profile_of_save db2 _). }
  split; [reflexivity|]. split; [reflexivity|]. cbn [locale].
  assert (Hloc : forall l, fxa_locale_of claims = l ->
    (In l (SUMO_LANGUAGES settings) ->
       (if existsb (String.eqb (fxa_locale_of claims)) (SUMO_LANGUAGES settings)
        then fxa_locale_of claims else LANGUAGE_CODE settings) = l) /\
    (~ In l (SUMO_LANGUAGES settings) ->
       (if existsb (String.eqb (fxa_locale_of claims)) (SUMO_LANGUAGES settings)
        then fxa_locale_of claims else LANGUAGE_CODE settings) = LANGUAGE_CODE settings)).
  { intros l ->. split; intros H.
    - replace (existsb (String.eqb l) (SUMO_LANGUAGES settings)) with true; [reflexivity|].
      symmetry. apply existsb_exists. exists l. split; [exact H|apply String.eqb_refl].
    - destruct (existsb (String.eqb l) (SUMO_LANGUAGES settings)) eqn:E; [|reflexivity].
      apply existsb_exists in E. destruct E as [l' [Hl' E]]. apply String.eqb_eq in E.
      subst l'. contradiction. }
  split.
  - intros first rest Hc Hf. apply Hloc. unfold fxa_locale_of.
    destruct Hc as [Hc|Hc]; rewrite Hc; cbn [get_str].
    + rewrite TokenFacts.py_split_none by exact Hf. reflexivity.
    + rewrite py_split_first by exact Hf. reflexivity.
  - intros Hc Hn. apply (Hloc ""); [|exact Hn].
    unfold fxa_locale_of. rewrite Hc. reflexivity.
Qed.

End CreateClaims.

(** C7 fails when the computed username is already taken: a new account
    whose UID no profile holds, from an anonymous request, but whose
    email computes the username of a stored user, is refused with
    [IntegrityError]; no user or profile is created. *)
Lemma create_user_username_taken_counterexample :
  (forall q, In q (db_profiles (st_db Sample.state_ann)) ->
     c_uid Sample.claims_ann_old = None \/ fxa_uid q <> c_uid Sample.claims_ann_old) /\
  req_user Sample.request = AnonymousUser /\
  create_user Sample.settings (Some Sample.request) "/users/edit" (fun e => e)
    Sample.claims_ann_old Sample.state_ann = (Raise IntegrityError, Sample.state_ann).
Proof.
  split; [|split; [reflexivity|vm_compute; reflexivity]].
  intros q Hq. cbn in Hq. right.
  destruct Hq as [<-|[<-|[<-|[]]]]; discriminate.
Qed.

Lemma create_user_migrated_profile_witness :
  let (res, st') := create_user Sample.settings (Some Sample.request) "/users/edit"
                      (fun e => e) Sample.claims_fresh Sample.state in
  exists u p,
    res = Ok u /\
    user_by_id (st_db Sample.state) (user_id u) = None /\
    user_by_id (st_db st') (user_id u) = Some u /\
    profile_of (st_db st') (user_id u) = Some p /\
    is_fxa_migrated p = true /\ fxa_uid p = c_uid Sample.claims_fresh /\
    (forall first rest,
       (c_locale Sample.claims_fresh = Some first \/
        c_locale Sample.claims_fresh = Some (first ++ String "," rest)%string) ->
       contains "," first = false ->
       (In first (SUMO_LANGUAGES Sample.settings) -> locale p = first) /\
       (~ In first (SUMO_LANGUAGES Sample.settings) ->
        locale p = LANGUAGE_CODE Sample.settings)) /\
    (c_locale Sample.claims_fresh = None -> ~ In "" (SUMO_LANGUAGES Sample.settings) ->
     locale p = LANGUAGE_CODE Sample.settings).
Proof.
  apply (CreateClaims.create_user_migrated_profile Sample.settings Sample.request "/users/edit"
           (fun e => e) Sample.claims_fresh Sample.state).
  - reflexivity.
  - reflexivity.
  - intros q Hq. cbn in Hq. right.
    destruct Hq as [<-|[<-|[]]]; discriminate.
Defined.
(** ** Facts on [update_user] *)
Module UpdateFacts.

(** The email stage of [update_user] succeeds only through [update_user_finish]. *)
Lemma email_stage (req : option Request) (user u' : User) (claims : Claims)
    (profile : Profile) (st0 st' : State) :
  (if negb (String.eqb (email user) (c_email claims)) && negb (is_staff user) then
     taken <- email_taken (user_id user) (c_email claims) ;;
     if taken then
       _ <- message req Error ("The email used with this Firefox Account is already " ++
                               "linked in another profile.")%string ;;
       ret None
     else
       update_user_finish claims (mkUser (user_id user) (username user) (c_email claims)
         (password user) (last_login user) (is_staff user)) profile true
   else update_user_finish claims user profile false) st0 = (Ok (Some u'), st') ->
  exists user0 changed, update_user_finish claims user0 profile changed st0 = (Ok (Some u'), st').
Proof.
  destruct (_ && _).
  - unfold bind at 1, email_taken, gets. cbn beta iota.
    destruct (existsb _ _).
    + destruct req; cbn; discriminate.
    + intros H. eexists _, _. exact H.
  - intros H. eexists _, _. exact H.
Qed.

(** A successful [update_user] ends with [update_user_finish] run from a
    state with the initial tables, on the user's profile. *)
Lemma update_user_success (req : option Request) (edit_url : string) (user u' : User) (claims : Claims) (st st' : State) :
  update_user req edit_url user claims st = (Ok (Some u'), st') ->
  exists profile profile' user0 changed st0,
    profile_of (st_db st) (user_id user) = Some profile /\
    prof_user profile' = prof_user profile /\
    st_db st0 = st_db st /\
    update_user_finish claims user0 profile' changed st0 = (Ok (Some u'), st').
Proof.
  unfold update_user, bind at 1, user_profile.
  destruct (profile_of (st_db st) (user_id user)) as [profile|] eqn:Hp; [|discriminate].
  cbn beta iota zeta. destruct (is_fxa_migrated profile) eqn:Hm; cbn -[update_user_finish email_taken].
  - intros H. apply email_stage in H. destruct H as [user0 [changed H]].
    exists profile, profile, user0, changed, st. auto.
  - unfold bind at 1, profile_exists_uid, gets at 1. cbn beta iota.
    unfold bind at 1. cbn beta iota. destruct (existsb _ (db_profiles (st_db st))).
    + destruct req; cbn; discriminate.
    + destruct req as [r|]; [|cbn; discriminate].
      cbn -[update_user_finish email_taken message]. intros H. apply email_stage in H.
      destruct H as [user0 [changed H]].
      eexists profile, _, user0, changed, _. split; [reflexivity|].
      split; [|split; [|exact H]]; reflexivity.
Qed.

(** [update_user_finish] leaves the profile linked to exactly the
    products named by the claims' subscriptions. *)
Lemma finish_links (claims : Claims) (user0 : User) (profile : Profile) (changed : bool)
    (st0 : State) (pid : nat) :
  In pid (linked_products (st_db (snd (update_user_finish claims user0 profile changed st0)))
            (prof_user profile)) <->
  exists p, In p (db_products (st_db st0)) /\ product_id p = pid /\
            In (codename p) (get_subscriptions claims).
Proof.
  rewrite <- (ProductFacts.linked_after_replace (st_db st0) (prof_user profile)
                (get_subscriptions claims) pid).
  assert (E : db_profile_products (st_db (snd (update_user_finish claims user0 profile changed st0))) =
              db_profile_products (products_add_db (products_clear_db (st_db st0) (prof_user profile))
                 (prof_user profile) (products_by_codename (st_db st0) (get_subscriptions claims)))).
  { destruct changed; destruct (String.eqb (name profile) "") eqn:En; run_finish;
      rewrite ?En; autorewrite with tables;
      match goal with |- context[uid_conflict ?d ?q] => destruct (uid_conflict d q) end;
      cbn; rewrite ?FxaClaims.save_profile_db_links, ?FxaClaims.save_user_db_links;
      reflexivity. }
  unfold linked_products. rewrite E. reflexivity.
Qed.

End UpdateFacts.

Module ProductClaims.

(** C9: after every successful [create_user] or [update_user], the
    products linked to the profile are exactly the stored products whose
    codename is among the claims' subscriptions; the links the profile
    had before play no part. *)
Theorem products_fully_replaced (settings : Settings) (req : option Request)
    (edit_url : string) (username_algo : string -> string) (claims : Claims)
    (user : User) (st : State) :
  (forall u st', create_user settings req edit_url username_algo claims st = (Ok u, st') ->
     forall pid, In pid (linked_products (st_db st') (user_id u)) <->
       exists p, In p (db_products (st_db st)) /\ product_id p = pid /\
                 In (codename p) (get_subscriptions claims)) /\
  (forall u st', update_user req edit_url user claims st = (Ok (Some u), st') ->
     forall pid, In pid (linked_products (st_db st') (user_id user)) <->
       exists p, In p (db_products (st_db st)) /\ product_id p = pid /\
                 In (codename p) (get_subscriptions claims)).
Proof.
  split.
  - intros u st' Hc pid. destruct req as [r|].
    + pose proof (CreateFacts.create_user_rejects settings (Some r) edit_url username_algo
                    claims st) as R. cbv zeta in R. destruct R as [R1 [R2 R3]].
      destruct (String.eqb (username_algo (c_email claims)) "") eqn:Hn;
        [rewrite (R1 eq_refl) in Hc; discriminate|].
      destruct (existsb _ (db_users (st_db st))) eqn:Ht;
        [rewrite (R2 eq_refl eq_refl) in Hc; discriminate|].
      match type of R3 with _ -> _ -> ?c = true -> _ => destruct c eqn:Hu end.
      { destruct (R3 eq_refl eq_refl eq_refl) as [F _]. rewrite Hc in F. discriminate. }
      destruct (CreateFacts.create_user_run settings r edit_url username_algo claims st Hn Ht Hu)
        as [db2 [st0 [Hrun [Hu2 [Hp2 [Hu4 [Hpr4 [Hprod4 Hl4]]]]]]]].
      rewrite Hc in Hrun. injection Hrun as Eu Est. subst u st0.
      rewrite ProductFacts.in_linked_products, Hl4, <- ProductFacts.in_linked_products.
      rewrite ProductFacts.linked_after_replace, FxaClaims.save_profile_db_products, Hp2.
      reflexivity.
    + revert Hc. unfold create_user, bind at 1, base_create_user. cbn beta iota zeta.
      destruct (String.eqb _ _); [discriminate|].
      destruct (existsb _ _); [discriminate|].
      unfold bind at 1, profile_get_or_create. unfold set_db at 1. cbn [st_db user_id].
      destruct (profile_of _ _); unfold bind at 1, save_profile; cbn -[uid_conflict];
        destruct (uid_conflict _ _); cbn; discriminate.
  - intros u st' Hu pid.
    destruct (UpdateFacts.update_user_success req edit_url user u claims st st' Hu)
      as [profile [profile' [user0 [changed [st0 [Hp [Hk [Hdb Hf]]]]]]]].
    assert (Hkey : prof_user profile = user_id user).
    { unfold profile_of in Hp. apply find_some in Hp. destruct Hp as [_ Hp].
      apply Nat.eqb_eq in Hp. exact Hp. }
    pose proof (UpdateFacts.finish_links claims user0 profile' changed st0 pid) as HL.
    rewrite Hf, Hk, Hkey, Hdb in HL. exact HL.
Qed.

End ProductClaims.

(** ** Facts on dicts *)
Module DictFacts.

Lemma dict_get_set_same (d : dict) (k : string) (v : json) :
  dict_get (dict_set d k v) k = Some v.
Proof.
  induction d as [|[k' v'] d IH]; cbn.
  - rewrite String.eqb_refl. reflexivity.
  - destruct (String.eqb k k') eqn:E; cbn; rewrite E; [reflexivity|exact IH].
Qed.

Lemma dict_get_set_other (d : dict) (k k' : string) (v : json) :
  k' <> k -> dict_get (dict_set d k v) k' = dict_get d k'.
Proof.
  intros Hne. induction d as [|[k0 v0] d IH]; cbn.
  - apply String.eqb_neq in Hne. rewrite Hne. reflexivity.
  - destruct (String.eqb k k0) eqn:E; cbn.
    + apply String.eqb_eq in E. subst k0.
      apply String.eqb_neq in Hne. rewrite Hne. reflexivity.
    + rewrite IH. reflexivity.
Qed.

End DictFacts.

Module UserinfoClaims.

(** C8: with a subscription endpoint configured, [get_userinfo] issues
    one GET to it with the access token as bearer credential. When the
    request raises or the status is an HTTP error (400 to 599), it logs
    an error, does not raise, and returns the base user info unchanged.
    When the status is not an error and the body is a JSON object, it
    returns the base user info with ['subscriptions'] set to the fetched
    list (an empty list if the body has none) and every other key as it
    was. The tables are never touched. *)
Theorem get_userinfo_subscriptions (settings : Settings)
    (base_get_userinfo : string -> string -> json -> dict)
    (http_get : string -> list (string * string) -> bool -> HttpResponse)
    (access_token id_token : string) (payload : json) (st : State) (url : string) :
  FXA_OP_SUBSCRIPTION_ENDPOINT settings = Some url -> url <> "" ->
  let headers := [("Authorization", "Bearer " ++ access_token)%string] in
  let verify := OIDC_VERIFY_SSL settings in
  let base := base_get_userinfo access_token id_token payload in
  let out := get_userinfo settings base_get_userinfo http_get access_token id_token payload st in
  st_http (snd out) = st_http st ++ [(url, headers, verify)] /\
  st_db (snd out) = st_db st /\
  ((http_get url headers verify = HttpRequestException \/
    exists status body, http_get url headers verify = HttpResponseOf status body /\
                        400 <= status < 600) ->
   fst out = Ok base /\
   st_log (snd out) = st_log st ++ [(Error, "Failed to fetch subscription status")]) /\
  (forall status kv, http_get url headers verify = HttpResponseOf status (Some (JObj kv)) ->
   ~ (400 <= status < 600) ->
   exists d, fst out = Ok d /\
     dict_get d "subscriptions" = Some (dict_get_default kv "subscriptions" (JArr [])) /\
     (forall k, k <> "subscriptions" -> dict_get d k = dict_get base k) /\
     st_log (snd out) = st_log st).
Proof.
  intros He Hne headers verify base out. subst out.
  unfold get_userinfo. rewrite He.
  assert (Hu : match url with "" => False | _ => True end)
    by (destruct url; [contradiction|exact I]).
  destruct url as [|c rest]; [contradiction|]. clear Hu.
  cbn beta iota zeta. fold headers verify base.
  unfold bind at 1, record_http, modify. cbn beta iota.
  destruct (http_get (String c rest) headers verify) as [|status body] eqn:Hg.
  - cbn. split; [reflexivity|]. split; [reflexivity|]. split.
    + intros _. split; reflexivity.
    + intros status kv Hs. discriminate Hs.
  - split; [|split; [|split]].
    + destruct ((400 <=? status) && (status <? 600)); [reflexivity|].
      destruct body as [[]|]; reflexivity.
    + destruct ((400 <=? status) && (status <? 600)); [reflexivity|].
      destruct body as [[]|]; reflexivity.
    + intros [Hs|[status' [body' [Hs Hr]]]]; [discriminate Hs|].
      injection Hs as -> ->.
      replace ((400 <=? status') && (status' <? 600)) with true by lia.
      split; reflexivity.
    + intros status' kv Hs Hr. injection Hs as -> ->.
      replace ((400 <=? status') && (status' <? 600)) with false by lia.
      eexists. split; [reflexivity|]. split; [apply DictFacts.dict_get_set_same|].
      split; [intros k Hk; apply DictFacts.dict_get_set_other, Hk|reflexivity].
Qed.

End UserinfoClaims.

Lemma get_userinfo_subscriptions_witness :
  fst (get_userinfo Sample.settings Sample.base_userinfo Sample.http_down "tok" "idt" JNull
         Sample.state) = Ok (Sample.base_userinfo "tok" "idt" JNull) /\
  exists d, fst (get_userinfo Sample.settings Sample.base_userinfo Sample.http_ok "tok" "idt"
                   JNull Sample.state) = Ok d /\
            dict_get d "subscriptions" = Some (JArr [JStr "firefox"]).
Proof.
  split.
  - pose proof (UserinfoClaims.get_userinfo_subscriptions Sample.settings Sample.base_userinfo
                  Sample.http_down "tok" "idt" JNull Sample.state
                  "https://subscriptions.example/v1" eq_refl ltac:(discriminate)) as H.
    cbv zeta in H. destruct H as [_ [_ [H _]]].
    exact (proj1 (H (or_introl eq_refl))).
  - pose proof (UserinfoClaims.get_userinfo_subscriptions Sample.settings Sample.base_userinfo
                  Sample.http_ok "tok" "idt" JNull Sample.state
                  "https://subscriptions.example/v1" eq_refl ltac:(discriminate)) as H.
    cbv zeta in H. destruct H as [_ [_ [_ H]]].
    destruct (H 200 [("subscriptions", JArr [JStr "firefox"])] eq_refl ltac:(lia))
      as [d [Hd [Hs _]]].
    exists d. split; [exact Hd|exact Hs].
Defined.

Lemma products_fully_replaced_witness :
  In 10%nat (linked_products (st_db (snd (update_user (Some Sample.request) "/users/edit"
      Sample.bob Sample.claims_fresh Sample.state))) (user_id Sample.bob)) <->
  exists p, In p (db_products Sample.db) /\ product_id p = 10%nat /\
            In (codename p) ["firefox"; "unknown"].
Proof.
  refine (proj2 (ProductClaims.products_fully_replaced Sample.settings (Some Sample.request)
            "/users/edit" (fun e => e) Sample.claims_fresh Sample.bob Sample.state)
            (mkUser 1 "bob" "bob.new@example.com" "pw1" None false) _ _ 10%nat).
  vm_compute. reflexivity.
Defined.

(** ** Further facts on the token login backend *)
Module TokenMore.
Local Open Scope string_scope.

Lemma get_by_username_ok (users : list User) (name : string) (u : User) :
  get_by_username users name = Ok u -> In u users /\ username u = name.
Proof.
  unfold get_by_username.
  destruct (filter (fun u => String.eqb (username u) name) users) as [|v [|w l]] eqn:E;
    try discriminate.
  intros H. injection H as <-.
  assert (Hv : In v (filter (fun u => String.eqb (username u) name) users))
    by (rewrite E; left; reflexivity).
  apply filter_In in Hv. destruct Hv as [Hin Heq]. apply String.eqb_eq in Heq. auto.
Qed.

Lemma get_by_username_absent (users : list User) (name : string) :
  (forall u, In u users -> username u <> name) ->
  get_by_username users name = Raise DoesNotExist.
Proof.
  intros H. unfold get_by_username.
  replace (filter (fun u => String.eqb (username u) name) users) with (@nil User);
    [reflexivity|].
  induction users as [|v users IH]; [reflexivity|]. cbn.
  destruct (String.eqb (username v) name) eqn:E.
  - apply String.eqb_eq in E. exfalso. exact (H v (or_introl eq_refl) E).
  - apply IH. intros u Hu. exact (H u (or_intror Hu)).
Qed.

Lemma py_split_nonnil (sep : ascii) (s : string) : py_split sep s <> [].
Proof.
  destruct s as [|c s]; cbn; [discriminate|].
  destruct (Ascii.eqb c sep); [discriminate|]. destruct (py_split sep s); discriminate.
Qed.

Lemma py_split_one (sep : ascii) (s b : string) : py_split sep s = [b] -> s = b.
Proof.
  revert b. induction s as [|c s IH]; intros b; cbn.
  - intros H. injection H as <-. reflexivity.
  - destruct (Ascii.eqb c sep).
    + intros H. injection H as _ H. exfalso. exact (py_split_nonnil sep s H).
    + case_eq (py_split sep s); [intros E; exfalso; exact (py_split_nonnil sep s E)|].
      intros x xs E H. injection H as <- ->. rewrite (IH x E). reflexivity.
Qed.

(** What [username, token = decoded.split(':')] takes apart. *)
Lemma py_split_two (sep : ascii) (s a b : string) :
  py_split sep s = [a; b] -> s = a ++ String sep b.
Proof.
  revert a. induction s as [|c s IH]; intros a; cbn.
  - discriminate.
  - destruct (Ascii.eqb c sep) eqn:Ec.
    + apply Ascii.eqb_eq in Ec. subst c. intros H. injection H as <- H.
      rewrite (py_split_one sep s b H). reflexivity.
    + case_eq (py_split sep s); [intros E; exfalso; exact (py_split_nonnil sep s E)|].
      intros x xs E H. injection H as <- ->. rewrite (IH x E). reflexivity.
Qed.

(** A user [authenticate] returns is a stored user whose name and a
    checked token are what the credential decodes to. *)
Lemma token_authenticate_some (check_token : User -> string -> bool) (users : list User)
    (auth : string) (u : User) :
  token_authenticate check_token users auth = Ok (Some u) ->
  In u users /\ exists token, Base64.b64decode auth = Ok (username u ++ String ":" token) /\
                              check_token u token = true.
Proof.
  unfold token_authenticate.
  destruct (Base64.b64decode auth) as [decoded|[]]; try discriminate.
  destruct (negb (contains ":" decoded)); [discriminate|].
  destruct (py_split ":" decoded) as [|name [|token [|x l]]] eqn:Es; try discriminate.
  destruct (get_by_username users name) as [v|[]] eqn:Eg; try discriminate.
  destruct (check_token v token) eqn:Ec; [|discriminate].
  intros H. injection H as <-.
  apply get_by_username_ok in Eg. destruct Eg as [Hin <-].
  split; [exact Hin|]. exists token. split; [|exact Ec].
  rewrite (py_split_two _ _ _ _ Es). reflexivity.
Qed.

Lemma get_by_pk_unique (users : list User) (u : User) :
  NoDup (map user_id users) -> In u users -> get_by_pk users (user_id u) = Ok u.
Proof.
  intros Hnd Hin. unfold get_by_pk.
  replace (filter (fun v => Nat.eqb (user_id v) (user_id u)) users) with [u]; [reflexivity|].
  induction users as [|v users IH]; [destruct Hin|].
  inversion Hnd as [|? ? Hnot Hnd']. subst. cbn.
  assert (Hnone : forall w, In w users -> Nat.eqb (user_id w) (user_id v) = false).
  { intros w Hw. apply Nat.eqb_neq. intros He. apply Hnot. rewrite <- He.
    apply in_map, Hw. }
  destruct Hin as [<-|Hin].
  - rewrite Nat.eqb_refl. f_equal. symmetry.
    clear IH Hnd Hnd' Hnot. induction users as [|w users IH']; [reflexivity|]. cbn.
    rewrite (Hnone w (or_introl eq_refl)). apply IH'.
    intros w' Hw'. exact (Hnone w' (or_intror Hw')).
  - rewrite Nat.eqb_sym, (Hnone u Hin). apply IH; assumption.
Qed.

Lemma get_by_pk_absent (users : list User) (id : nat) :
  (forall v, In v users -> user_id v <> id) -> get_by_pk users id = Raise DoesNotExist.
Proof.
  intros H. unfold get_by_pk.
  replace (filter (fun v => Nat.eqb (user_id v) id) users) with (@nil User); [reflexivity|].
  induction users as [|v users IH]; [reflexivity|]. cbn.
  destruct (Nat.eqb (user_id v) id) eqn:E.
  - apply Nat.eqb_eq in E. exfalso. exact (H v (or_introl eq_refl) E).
  - apply IH. intros w Hw. exact (H w (or_intror Hw)).
Qed.

End TokenMore.

(** ** Further facts on base64 *)
Module Base64More.
Import Base64.

Lemma find_valid_ws (a b : string) (c : ascii) (num : Z) :
  c = "010"%char \/ c = "013"%char \/ c = " "%char ->
  find_valid (a ++ String c b) num = find_valid (a ++ b) num.
Proof.
  intros Hc. revert num. induction a as [|d a IH]; intros num.
  - destruct Hc as [ -> | [ -> | -> ] ]; reflexivity.
  - cbn [append find_valid]. rewrite !IH. reflexivity.
Qed.

(** The decoder loop skips a line feed, carriage return or space
    wherever it stands. *)
Lemma a2b_loop_ws (a b : string) (c : ascii) (q lc lb : Z) :
  c = "010"%char \/ c = "013"%char \/ c = " "%char ->
  a2b_loop (a ++ String c b) q lc lb = a2b_loop (a ++ b) q lc lb.
Proof.
  intros Hc. revert q lc lb. induction a as [|d a IH]; intros q lc lb.
  - destruct Hc as [ -> | [ -> | -> ] ]; reflexivity.
  - pose proof (find_valid_ws (String d a) b c 1 Hc) as Hf. cbn [append] in Hf.
    cbn [append a2b_loop]. rewrite Hf, !IH. reflexivity.
Qed.

Lemma string_length_app (s t : string) :
  String.length (s ++ t) = (String.length s + String.length t)%nat.
Proof. induction s as [|c s IH]; cbn; [reflexivity|]. rewrite IH. reflexivity. Qed.

Lemma b64encode_length (s : string) :
  String.length (b64encode s) = (4 * ((String.length s + 2) / 3))%nat.
Proof.
  revert s. fix IH 1. intros [|a [|b [|c rest]]]; [reflexivity|reflexivity|reflexivity|].
  cbn [b64encode]. rewrite string_length_app, IH. cbn [String.length enc3].
  replace (S (S (S (String.length rest))) + 2)%nat
    with (String.length rest + 2 + 1 * 3)%nat by lia.
  rewrite Nat.div_add by lia. lia.
Qed.

Lemma list_ascii_app (s t : string) :
  list_ascii_of_string (s ++ t) = list_ascii_of_string s ++ list_ascii_of_string t.
Proof. induction s as [|c s IH]; cbn; [reflexivity|]. rewrite IH. reflexivity. Qed.

Lemma get_contains (n : nat) (s : string) (c : ascii) :
  String.get n s = Some c -> contains c s = true.
Proof.
  revert n. induction s as [|d s IH]; intros n; cbn; [discriminate|].
  destruct n as [|n].
  - intros H. injection H as ->. rewrite Ascii.eqb_refl. reflexivity.
  - intros H. rewrite (IH n H). apply orb_true_r.
Qed.

Lemma table_b2a_char (v : Z) :
  contains (table_b2a v) alphabet = true \/ table_b2a v = "="%char.
Proof.
  unfold table_b2a. destruct (String.get (Z.to_nat v) alphabet) eqn:E.
  - left. exact (get_contains _ _ _ E).
  - right. reflexivity.
Qed.

Lemma b64encode_chars (s : string) (c : ascii) :
  In c (list_ascii_of_string (b64encode s)) ->
  contains c alphabet = true \/ c = "="%char.
Proof.
  remember (String.length s) as n eqn:Hn. assert (Hle : (String.length s <= n)%nat) by lia.
  clear Hn. revert s Hle. induction n as [n IH] using lt_wf_ind.
  intros [|a [|b [|d rest]]] Hle.
  - intros [].
  - unfold b64encode, enc1. cbn beta iota zeta delta [list_ascii_of_string].
    intros [<-|[<-|[<-|[<-|[]]]]]; auto using table_b2a_char.
  - unfold b64encode, enc2. cbn beta iota zeta delta [list_ascii_of_string].
    intros [<-|[<-|[<-|[<-|[]]]]]; auto using table_b2a_char.
  - cbn [b64encode]. rewrite list_ascii_app. intros H. apply in_app_or in H as [H|H].
    + unfold enc3 in H. cbn beta iota zeta delta [list_ascii_of_string] in H.
      destruct H as [<-|[<-|[<-|[<-|[]]]]]; auto using table_b2a_char.
    + cbn [String.length] in Hle. exact (IH (String.length rest) ltac:(lia) rest (le_n _) H).
Qed.

End Base64More.

(** ** More properties of the token login backend *)
Module TokenExtras.
Local Open Scope string_scope.

(** A credential that decodes to a string without ':' gives [None]. *)
Theorem token_authenticate_no_separator (check_token : User -> string -> bool)
    (users : list User) (s : string) :
  contains ":" s = false ->
  token_authenticate check_token users (Base64.b64encode s) = Ok None.
Proof.
  intros Hs. unfold token_authenticate.
  rewrite Base64Facts.b64decode_b64encode, Hs. reflexivity.
Qed.

(** A well-formed credential naming no stored user gives [None]. *)
Theorem token_authenticate_unknown_user (check_token : User -> string -> bool)
    (users : list User) (name token : string) :
  contains ":" name = false -> contains ":" token = false ->
  (forall u, In u users -> username u <> name) ->
  token_authenticate check_token users (Base64.b64encode (name ++ String ":" token)) = Ok None.
Proof.
  intros Hn Ht Hu. unfold token_authenticate.
  rewrite Base64Facts.b64decode_b64encode, TokenFacts.contains_app. cbn [contains].
  rewrite Ascii.eqb_refl, orb_true_r. cbn [negb].
  rewrite TokenFacts.py_split_pair by assumption.
  rewrite TokenMore.get_by_username_absent by exact Hu. reflexivity.
Qed.

(** A well-formed credential whose token fails the check for the named
    user gives [None]. *)
Theorem token_authenticate_token_mismatch (check_token : User -> string -> bool)
    (users : list User) (name token : string) (u : User) :
  contains ":" name = false -> contains ":" token = false ->
  get_by_username users name = Ok u -> check_token u token = false ->
  token_authenticate check_token users (Base64.b64encode (name ++ String ":" token)) = Ok None.
Proof.
  intros Hn Ht Hu Hc. unfold token_authenticate.
  rewrite Base64Facts.b64decode_b64encode, TokenFacts.contains_app. cbn [contains].
  rewrite Ascii.eqb_refl, orb_true_r. cbn [negb].
  rewrite TokenFacts.py_split_pair by assumption. rewrite Hu, Hc. reflexivity.
Qed.

(** A user that [authenticate] returns is a stored user; the credential
    decodes to its username, ':' and a token that passes the check; and
    when user ids are unique, [get_user] on its id gives it back with
    [backend] set to the token middleware. *)
Theorem token_authenticate_then_get_user (check_token : User -> string -> bool)
    (users : list User) (auth : string) (u : User) :
  NoDup (map user_id users) ->
  token_authenticate check_token users auth = Ok (Some u) ->
  In u users /\
  (exists token, Base64.b64decode auth = Ok (username u ++ String ":" token) /\
                 check_token u token = true) /\
  token_get_user users (user_id u) = Ok (Some (u, token_backend_path)).
Proof.
  intros Hnd Ha. destruct (TokenMore.token_authenticate_some _ _ _ _ Ha) as [Hin Htok].
  split; [exact Hin|]. split; [exact Htok|].
  unfold token_get_user. rewrite (TokenMore.get_by_pk_unique users u Hnd Hin). reflexivity.
Qed.

(** [get_user]: with unique ids, a stored user's id gives that user with
    [backend] set; an id no user has gives [None]. *)
Theorem token_get_user_lookup (users : list User) (u : User) (id : nat) :
  NoDup (map user_id users) ->
  (In u users -> token_get_user users (user_id u) = Ok (Some (u, token_backend_path))) /\
  ((forall v, In v users -> user_id v <> id) -> token_get_user users id = Ok None).
Proof.
  intros Hnd. split.
  - intros Hin. unfold token_get_user.
    rewrite (TokenMore.get_by_pk_unique users u Hnd Hin). reflexivity.
  - intros Hnone. unfold token_get_user. rewrite TokenMore.get_by_pk_absent by exact Hnone.
    reflexivity.
Qed.

(** A line feed, carriage return or space anywhere in the credential
    changes nothing: the decoder skips it. *)
Theorem token_authenticate_skips_whitespace (check_token : User -> string -> bool)
    (users : list User) (a b : string) (c : ascii) :
  c = "010"%char \/ c = "013"%char \/ c = " "%char ->
  token_authenticate check_token users (a ++ String c b) =
  token_authenticate check_token users (a ++ b).
Proof.
  intros Hc. unfold token_authenticate, Base64.b64decode.
  rewrite Base64More.a2b_loop_ws by exact Hc. reflexivity.
Qed.

(** [get_auth_str] gives a padded base64 string: four characters for
    each started group of three bytes of '{username}:{token}', each from
    the base64 alphabet or '='. *)
Theorem get_auth_str_shape (make_token : User -> string) (u : User) :
  String.length (get_auth_str make_token u) =
    (4 * ((String.length (username u) + 1 + String.length (make_token u) + 2) / 3))%nat /\
  forall c, In c (list_ascii_of_string (get_auth_str make_token u)) ->
            contains c Base64.alphabet = true \/ c = "="%char.
Proof.
  split.
  - unfold get_auth_str. rewrite Base64More.b64encode_length, !Base64More.string_length_app.
    cbn [String.length]. f_equal. f_equal. lia.
  - apply Base64More.b64encode_chars.
Qed.

End TokenExtras.

Lemma token_authenticate_no_separator_witness :
  token_authenticate SampleTokens.check_token [sample_user] (Base64.b64encode "alice") = Ok None.
Proof.
  apply TokenExtras.token_authenticate_no_separator. reflexivity.
Defined.

Lemma token_authenticate_unknown_user_witness :
  token_authenticate SampleTokens.check_token [sample_user]
    (Base64.b64encode ("mallory" ++ String ":" "0123")) = Ok None.
Proof.
  apply TokenExtras.token_authenticate_unknown_user; [reflexivity|reflexivity|].
  intros u [<-|[]]. discriminate.
Defined.

Lemma token_authenticate_token_mismatch_witness :
  token_authenticate SampleTokens.check_token [sample_user]
    (Base64.b64encode ("alice" ++ String ":" "0123")) = Ok None.
Proof.
  apply (TokenExtras.token_authenticate_token_mismatch _ _ _ _ sample_user);
    vm_compute; reflexivity.
Defined.

Lemma token_authenticate_then_get_user_witness :
  token_get_user [sample_user] (user_id sample_user) =
    Ok (Some (sample_user, token_backend_path)).
Proof.
  refine (proj2 (proj2 (TokenExtras.token_authenticate_then_get_user SampleTokens.check_token
            [sample_user] (get_auth_str SampleTokens.make_token sample_user) sample_user _ _))).
  - repeat constructor. intros [].
  - vm_compute. reflexivity.
Defined.

Lemma token_get_user_lookup_witness :
  token_get_user [sample_user] 7%nat = Ok (Some (sample_user, token_backend_path)) /\
  token_get_user [sample_user] 8%nat = Ok None.
Proof.
  destruct (TokenExtras.token_get_user_lookup [sample_user] sample_user 8%nat
              ltac:(repeat constructor; intros [])) as [H1 H2].
  split.
  - exact (H1 (or_introl eq_refl)).
  - apply H2. intros v [<-|[]]. discriminate.
Defined.

Lemma token_authenticate_skips_whitespace_witness :
  token_authenticate SampleTokens.check_token [sample_user] ("YWxp" ++ String "010" "Y2U=") =
  token_authenticate SampleTokens.check_token [sample_user] ("YWxp" ++ "Y2U=").
Proof.
  apply TokenExtras.token_authenticate_skips_whitespace. left. reflexivity.
Defined.

(** ** Record-level facts on the table operations *)

Module FxaMore.

(** Closes the user, profile and product-link goals for an id other
    than the new user's, after one run of [create_user]. *)
Ltac others_step :=
  repeat split;
  [ unfold user_by_id; cbn [with_users db_users];
    rewrite TableFacts.find_app_false; [reflexivity|apply Nat.eqb_neq; cbn; congruence]
  | rewrite TableFacts.profile_of_save_other by (cbn; congruence);
    unfold profile_of; cbn [with_users with_profiles db_profiles];
    rewrite ?TableFacts.find_app_false; [reflexivity|apply Nat.eqb_neq; cbn; congruence ..]
  | rewrite TableFacts.linked_products_replace_other by (cbn; congruence);
    autorewrite with tables; reflexivity ].

(** The same goals when the profile save raised: only the user row was
    added. *)
Ltac others_raise :=
  cbn [snd st_db set_db]; repeat split;
  unfold user_by_id, profile_of; cbn [with_users with_profiles db_users db_profiles];
  rewrite ?TableFacts.find_app_false; try reflexivity;
  apply Nat.eqb_neq; cbn; congruence.

(** Runs [create_user] in [Eo] past the user row, the profile and its
    save, given a usable username and a free UID. *)
Ltac create_prelude st Eo Hn Ht Hu :=
  unfold create_user, bind at 1, base_create_user in Eo; cbn beta iota zeta in Eo;
  rewrite Hn, Ht in Eo;
  unfold bind at 1, profile_get_or_create in Eo; unfold set_db at 1 in Eo;
  cbn [st_db user_id] in Eo; unfold save_profile in Eo;
  let Hp := fresh "Hp" in
  destruct (profile_of _ _) eqn:Hp; cbn beta iota zeta in Eo;
  unfold bind at 1 in Eo; cbn beta iota zeta in Eo;
  [ rewrite (CreateFacts.uid_conflict_fresh (st_db st)) in Eo by (left; reflexivity)
  | rewrite (CreateFacts.uid_conflict_fresh (st_db st)) in Eo
      by (right; eexists; split; [|reflexivity]; reflexivity) ];
  rewrite (CreateFacts.uid_conflict_unheld _ _ Hu) in Eo by reflexivity.

(** The email stage of [update_user]: the tables are untouched, or it
    hands over to [update_user_finish] with a record of the same user. *)
Lemma email_stage_shape (req : option Request) (user : User) (claims : Claims)
    (profile : Profile) (st0 : State) :
  let out :=
    (if negb (String.eqb (email user) (c_email claims)) && negb (is_staff user) then
       taken <- email_taken (user_id user) (c_email claims) ;;
       if taken then
         _ <- message req Error ("The email used with this Firefox Account is already " ++
                                 "linked in another profile.")%string ;;
         ret None
       else
         update_user_finish claims (mkUser (user_id user) (username user) (c_email claims)
           (password user) (last_login user) (is_staff user)) profile true
     else update_user_finish claims user profile false) st0 in
  ((forall u, fst out <> Ok (Some u)) /\ st_db (snd out) = st_db st0) \/
  exists user0 changed, user_id user0 = user_id user /\
    out = update_user_finish claims user0 profile changed st0.
Proof.
  intros out. subst out. destruct (_ && _).
  - unfold bind, email_taken, gets. cbn beta iota.
    destruct (existsb _ (db_users (st_db st0))) eqn:E.
    + left. destruct req; (split; [intros u' Hc; discriminate Hc|reflexivity]).
    + right. exists (mkUser (user_id user) (username user) (c_email claims)
        (password user) (last_login user) (is_staff user)), true. split; reflexivity.
  - right. eexists _, _. split; reflexivity.
Qed.

(** [update_user] either leaves the tables as they are, or reaches
    [update_user_finish] with the user's profile (migrated if it was
    not, with the session and message updates of the migration) and a
    record of the same user. *)
Lemma update_user_shape (req : option Request) (edit_url : string) (user : User)
    (claims : Claims) (st : State) :
  let out := update_user req edit_url user claims st in
  ((forall u, fst out <> Ok (Some u)) /\ st_db (snd out) = st_db st) \/
  exists p user0 changed,
    profile_of (st_db st) (user_id user) = Some p /\
    user_id user0 = user_id user /\
    out = update_user_finish claims user0
            (if is_fxa_migrated p then p
             else mkProfile (prof_user p) true (c_uid claims) (fxa_avatar p) (name p) (locale p))
            changed
            (if is_fxa_migrated p then st
             else mkState (st_db st) (mkSession (Some edit_url) (is_contributor (st_session st)))
                    (st_messages st ++ [(Info, "fxa_notification_updated")])
                    (st_log st) (st_http st)).
Proof.
  intros out. remember (update_user req edit_url user claims st) as o eqn:Eo. subst out.
  unfold update_user, bind at 1, user_profile in Eo.
  destruct (profile_of (st_db st) (user_id user)) as [p|] eqn:Hp;
    [|left; subst o; split; [intros u Hc; discriminate Hc|reflexivity]].
  cbn beta iota zeta in Eo. destruct (is_fxa_migrated p) eqn:Hm.
  - pose proof (email_stage_shape req user claims p st) as H. cbv zeta in H.
    destruct H as [H|[user0 [changed [Hid H]]]]; [left; subst o; exact H|right].
    exists p, user0, changed. rewrite Hm.
    split; [reflexivity|split; [exact Hid|subst o; exact H]].
  - unfold bind at 1, profile_exists_uid, gets at 1 in Eo. cbn beta iota in Eo.
    unfold bind at 1 in Eo. cbn beta iota delta [negb] in Eo.
    destruct (existsb (fun p => option_string_eqb (fxa_uid p) (c_uid claims))
                (db_profiles (st_db st))) eqn:E.
    + left. subst o. destruct req; (split; [intros u Hc; discriminate Hc|reflexivity]).
    + destruct req as [r|]; [|left; subst o; split; [intros u Hc; discriminate Hc|reflexivity]].
      pose proof (email_stage_shape (Some r) user claims
        (mkProfile (prof_user p) true (c_uid claims) (fxa_avatar p) (name p) (locale p))
        (mkState (st_db st) (mkSession (Some edit_url) (is_contributor (st_session st)))
           (st_messages st ++ [(Info, "fxa_notification_updated")])
           (st_log st) (st_http st))) as H. cbv zeta in H.
      destruct H as [H|[user0 [changed [Hid H]]]]; [left; subst o; exact H|right].
      exists p, user0, changed. rewrite Hm.
    split; [reflexivity|split; [exact Hid|subst o; exact H]].
Qed.

(** One run of [update_user_finish]: its result, what it leaves of the
    session and messages, and, when no other profile holds the profile's
    UID, the profile it stores and the user record. *)
Lemma finish_run (claims : Claims) (user0 : User) (prof : Profile) (changed : bool)
    (st0 : State) :
  let out := update_user_finish claims user0 prof changed st0 in
  st_session (snd out) = st_session st0 /\ st_messages (snd out) = st_messages st0 /\
  (uid_conflict (st_db st0) prof = true -> fst out = Raise IntegrityError) /\
  (uid_conflict (st_db st0) prof = false ->
   fst out = Ok (Some user0) /\
   profile_of (st_db (snd out)) (prof_user prof) =
     Some (mkProfile (prof_user prof) (is_fxa_migrated prof) (fxa_uid prof)
             (get_str (c_avatar claims))
             (if String.eqb (name prof) "" then get_str (c_displayName claims) else name prof)
             (locale prof)) /\
   user_by_id (st_db (snd out)) (user_id user0) =
     (if changed then Some user0 else user_by_id (st_db st0) (user_id user0))).
Proof.
  intros out. subst out.
  destruct changed; destruct (String.eqb (name prof) "") eqn:En; run_finish; rewrite ?En;
    autorewrite with tables;
    rewrite (TableFacts.uid_conflict_key _ prof) by reflexivity;
    destruct (uid_conflict (st_db st0) prof);
    cbn [fst snd st_session st_messages st_db set_db];
    (split; [reflexivity|split; [reflexivity|split]]); intros Hc; try discriminate Hc;
    try reflexivity;
    (split; [reflexivity|split]);
    try (apply (CreateFacts.profile_of_save _ (mkProfile (prof_user prof) _ _ _ _ _)));
    autorewrite with tables; try reflexivity; apply FxaClaims.user_by_id_save.
Qed.

(** [update_user_finish] touches only the records of its user and profile. *)
Lemma finish_others (claims : Claims) (user0 : User) (prof : Profile) (changed : bool)
    (st0 : State) (id : nat) :
  id <> prof_user prof -> id <> user_id user0 ->
  let db' := st_db (snd (update_user_finish claims user0 prof changed st0)) in
  user_by_id db' id = user_by_id (st_db st0) id /\
  profile_of db' id = profile_of (st_db st0) id /\
  linked_products db' id = linked_products (st_db st0) id.
Proof.
  intros Hp Hu db'. subst db'.
  destruct changed; destruct (String.eqb (name prof) "") eqn:En; run_finish; rewrite ?En;
    autorewrite with tables;
    destruct (uid_conflict _ _); cbn [fst snd st_db set_db];
    rewrite ?TableFacts.profile_of_save_other by (cbn; congruence);
    autorewrite with tables;
    rewrite ?TableFacts.user_by_id_save_other by congruence;
    autorewrite with tables;
    rewrite ?TableFacts.linked_products_replace_other by (cbn; congruence);
    repeat split.
Qed.

Lemma profile_of_key (db : DB) (id : nat) (p : Profile) :
  profile_of db id = Some p -> prof_user p = id.
Proof.
  unfold profile_of. intros H. apply find_some in H. destruct H as [_ H].
  apply Nat.eqb_eq in H. exact H.
Qed.

(** A successful [update_user]: the profile it stores, the session and
    the messages it leaves. *)
Lemma update_user_success_run (req : option Request) (edit_url : string) (user u : User)
    (claims : Claims) (st st' : State) (p : Profile) :
  profile_of (st_db st) (user_id user) = Some p ->
  update_user req edit_url user claims st = (Ok (Some u), st') ->
  profile_of (st_db st') (user_id user) =
    Some (mkProfile (user_id user) true
            (if is_fxa_migrated p then fxa_uid p else c_uid claims)
            (get_str (c_avatar claims))
            (if String.eqb (name p) "" then get_str (c_displayName claims) else name p)
            (locale p)) /\
  oidc_login_next (st_session st') =
    (if is_fxa_migrated p then oidc_login_next (st_session st) else Some edit_url) /\
  is_contributor (st_session st') = is_contributor (st_session st) /\
  st_messages st' =
    st_messages st ++ (if is_fxa_migrated p then [] else [(Info, "fxa_notification_updated")]).
Proof.
  intros Hp0 Hrun.
  destruct (update_user_shape req edit_url user claims st)
    as [[Hs _]|[p1 [user0 [changed [Hp [Hid H]]]]]].
  - rewrite Hrun in Hs. exfalso. exact (Hs u eq_refl).
  - rewrite Hp0 in Hp. injection Hp as <-. pose proof (profile_of_key _ _ _ Hp0) as Hk.
    rewrite Hrun in H.
    destruct (is_fxa_migrated p) eqn:Hm;
      (match type of H with _ = update_user_finish ?c ?u ?q ?ch ?s =>
         destruct (finish_run c u q ch s) as [Hs [Hmsg [Hbad Hgood]]];
         destruct (uid_conflict (st_db s) q);
         [rewrite <- H in Hbad; specialize (Hbad eq_refl); discriminate Hbad|];
         destruct (Hgood eq_refl) as [_ [Hprof _]]
       end;
       rewrite <- H in Hs, Hmsg, Hprof; cbn [snd prof_user is_fxa_migrated fxa_uid name locale
         st_session st_messages] in Hs, Hmsg, Hprof; rewrite Hk, ?Hm in Hprof;
       rewrite Hs, Hmsg; cbn; rewrite ?app_nil_r; repeat split; exact Hprof).
Qed.

End FxaMore.

Module FxaExtras.
Import FxaMore.

(** [create_user] changes no other user's records: for every id other
    than the one it hands out, the stored user, the profile and the
    linked products are what they were, whether or not the call raises. *)
Theorem create_user_keeps_others (settings : Settings) (req : option Request) (edit_url : string)
    (username_algo : string -> string) (claims : Claims) (st : State) (id : nat) :
  id <> fresh_user_id (st_db st) ->
  let st' := snd (create_user settings req edit_url username_algo claims st) in
  user_by_id (st_db st') id = user_by_id (st_db st) id /\
  profile_of (st_db st') id = profile_of (st_db st) id /\
  linked_products (st_db st') id = linked_products (st_db st) id.
Proof.
  intros Hne st'.
  remember (create_user settings req edit_url username_algo claims st) as out eqn:Eo.
  unfold create_user, bind at 1, base_create_user in Eo. cbn beta iota zeta in Eo.
  destruct (String.eqb _ _); [subst out st'; repeat split|].
  destruct (existsb _ _); [subst out st'; repeat split|].
  unfold bind at 1, profile_get_or_create in Eo. unfold set_db at 1 in Eo.
  cbn [st_db user_id] in Eo. unfold save_profile in Eo.
  destruct (profile_of _ _) as [p0|] eqn:Hp.
  - assert (Hk : prof_user p0 = fresh_user_id (st_db st)).
    { unfold profile_of in Hp. apply find_some in Hp. destruct Hp as [_ Hp].
      apply Nat.eqb_eq in Hp. exact Hp. }
    cbn beta iota zeta in Eo. unfold bind at 1 in Eo. cbn beta iota zeta in Eo.
    match type of Eo with context[uid_conflict ?a ?b] => destruct (uid_conflict a b) end.
    + subst out st'. others_raise.
    + destruct req as [r|]; [destruct (is_contributor (st_session st)) as [[|]|] eqn:Hc|];
      cbn -[profile_of user_by_id linked_products save_profile_db save_user_db products_add_db
            products_clear_db products_by_codename] in Eo; rewrite ?Hc in Eo;
      cbn -[profile_of user_by_id linked_products save_profile_db save_user_db products_add_db
            products_clear_db products_by_codename] in Eo; subst out st';
      unfold ret, set_session, set_db; cbn [snd st_db]; autorewrite with tables;
      others_step.
  - cbn beta iota zeta in Eo. unfold bind at 1 in Eo. cbn beta iota zeta in Eo.
    match type of Eo with context[uid_conflict ?a ?b] => destruct (uid_conflict a b) end.
    + subst out st'. others_raise.
    + destruct req as [r|]; [destruct (is_contributor (st_session st)) as [[|]|] eqn:Hc|];
      cbn -[profile_of user_by_id linked_products save_profile_db save_user_db products_add_db
            products_clear_db products_by_codename] in Eo; rewrite ?Hc in Eo;
      cbn -[profile_of user_by_id linked_products save_profile_db save_user_db products_add_db
            products_clear_db products_by_codename] in Eo; subst out st';
      unfold ret, set_session, set_db; cbn [snd st_db]; autorewrite with tables;
      others_step.
Qed.

(** With a request, a computed username that is non-empty and not yet
    taken, and a claimed UID that no stored profile holds, [create_user]
    returns the new user (fresh id, the computed username, the claimed
    email normalised, an unusable password), points the session's
    [oidc_login_next] at the profile edit page, queues the info message
    ["fxa_notification_created"], and clears the session's
    [is_contributor] flag when it was set to true, leaving it as it was
    otherwise. It logs nothing and issues no HTTP request. *)
Theorem create_user_session_effects (settings : Settings) (r : Request) (edit_url : string)
    (username_algo : string -> string) (claims : Claims) (st : State)
    (Hname : String.eqb (username_algo (c_email claims)) "" = false)
    (Hfree : existsb (fun v => String.eqb (username v) (username_algo (c_email claims)))
               (db_users (st_db st)) = false)
    (Huid : forall q, In q (db_profiles (st_db st)) ->
            c_uid claims = None \/ fxa_uid q <> c_uid claims) :
  let out := create_user settings (Some r) edit_url username_algo claims st in
  fst out = Ok (mkUser (fresh_user_id (st_db st)) (username_algo (c_email claims))
                  (normalize_email (c_email claims)) "!" None false) /\
  oidc_login_next (st_session (snd out)) = Some edit_url /\
  is_contributor (st_session (snd out)) =
    match is_contributor (st_session st) with Some true => None | c => c end /\
  st_messages (snd out) = st_messages st ++ [(Info, "fxa_notification_created")] /\
  st_log (snd out) = st_log st /\ st_http (snd out) = st_http st.
Proof.
  intros out.
  remember (create_user settings (Some r) edit_url username_algo claims st) as o eqn:Eo.
  subst out. create_prelude st Eo Hname Hfree Huid;
  destruct (is_contributor (st_session st)) as [[|]|] eqn:Hc;
    cbn -[profile_of user_by_id linked_products save_profile_db save_user_db products_add_db
          products_clear_db products_by_codename] in Eo; rewrite ?Hc in Eo;
    cbn -[profile_of user_by_id linked_products save_profile_db save_user_db products_add_db
          products_clear_db products_by_codename] in Eo; subst o; cbn; rewrite ?Hc;
    repeat split.
Qed.

(** Without a request, given a computed username that is non-empty and
    not yet taken and a claimed UID that no stored profile holds,
    [create_user] raises [AttributeError] when it first touches
    [self.request.session], but only after it has stored the new user
    (with the claimed email normalised) and its migrated profile carrying
    the claimed UID: the writes before the failure stay. The session and
    messages are not changed. *)
Theorem create_user_without_request (settings : Settings) (edit_url : string)
    (username_algo : string -> string) (claims : Claims) (st : State)
    (Hname : String.eqb (username_algo (c_email claims)) "" = false)
    (Hfree : existsb (fun v => String.eqb (username v) (username_algo (c_email claims)))
               (db_users (st_db st)) = false)
    (Huid : forall q, In q (db_profiles (st_db st)) ->
            c_uid claims = None \/ fxa_uid q <> c_uid claims) :
  let (res, st') := create_user settings None edit_url username_algo claims st in
  let id := fresh_user_id (st_db st) in
  res = Raise AttributeError /\
  user_by_id (st_db st') id =
    Some (mkUser id (username_algo (c_email claims)) (normalize_email (c_email claims))
            "!" None false) /\
  (exists p, profile_of (st_db st') id = Some p /\ is_fxa_migrated p = true /\
             fxa_uid p = c_uid claims) /\
  st_session st' = st_session st /\ st_messages st' = st_messages st.
Proof.
  remember (create_user settings None edit_url username_algo claims st) as o eqn:Eo.
  assert (Hu : forall db, user_by_id (with_users db (db_users db ++
      [mkUser (fresh_user_id db) (username_algo (c_email claims))
         (normalize_email (c_email claims)) "!" None false]))
      (fresh_user_id db) =
      Some (mkUser (fresh_user_id db) (username_algo (c_email claims))
              (normalize_email (c_email claims)) "!" None false)).
  { intros db. apply (FxaClaims.find_app_none _ (mkUser (fresh_user_id db) _ _ _ _ _)).
    apply CreateFacts.fresh_user_id_unused. }
  create_prelude st Eo Hname Hfree Huid.
  - rename Hp into Hp0.
    assert (Hk : prof_user p = fresh_user_id (st_db st)).
    { unfold profile_of in Hp0. apply find_some in Hp0. destruct Hp0 as [_ Hp0].
      apply Nat.eqb_eq in Hp0. exact Hp0. }
    cbn -[profile_of user_by_id linked_products save_profile_db save_user_db products_add_db
          products_clear_db products_by_codename fresh_user_id] in Eo. subst o.
    cbn -[profile_of user_by_id linked_products save_profile_db save_user_db products_add_db
          products_clear_db products_by_codename fresh_user_id].
    autorewrite with tables. rewrite Hu.
    split; [reflexivity|]. split; [reflexivity|]. split; [|split; reflexivity].
    eexists. rewrite <- Hk.
    split; [apply (CreateFacts.profile_of_save _ (mkProfile (prof_user p) _ _ _ _ _))|].
    split; reflexivity.
  - cbn -[profile_of user_by_id linked_products save_profile_db save_user_db products_add_db
          products_clear_db products_by_codename fresh_user_id] in Eo. subst o.
    cbn -[profile_of user_by_id linked_products save_profile_db save_user_db products_add_db
          products_clear_db products_by_codename fresh_user_id].
    autorewrite with tables. rewrite Hu.
    split; [reflexivity|]. split; [reflexivity|]. split; [|split; reflexivity].
    eexists.
    split; [apply (CreateFacts.profile_of_save _ (mkProfile (fresh_user_id (st_db st)) _ _ _ _ _))|].
    split; reflexivity.
Qed.

(** With a request, a computed username that is non-empty and not yet
    taken, and a claimed UID that no stored profile holds, the user
    [create_user] stores has the fresh id, the computed username, the
    claimed email normalised by [normalize_email] and the unusable
    password ["!"]; its profile takes the claims' avatar and display
    name, the empty string when the claims lack them. *)
Theorem create_user_profile_fields (settings : Settings) (r : Request) (edit_url : string)
    (username_algo : string -> string) (claims : Claims) (st : State)
    (Hname : String.eqb (username_algo (c_email claims)) "" = false)
    (Hfree : existsb (fun v => String.eqb (username v) (username_algo (c_email claims)))
               (db_users (st_db st)) = false)
    (Huid : forall q, In q (db_profiles (st_db st)) ->
            c_uid claims = None \/ fxa_uid q <> c_uid claims) :
  let st' := snd (create_user settings (Some r) edit_url username_algo claims st) in
  let id := fresh_user_id (st_db st) in
  user_by_id (st_db st') id =
    Some (mkUser id (username_algo (c_email claims)) (normalize_email (c_email claims))
            "!" None false) /\
  exists p, profile_of (st_db st') id = Some p /\
            fxa_avatar p = get_str (c_avatar claims) /\ name p = get_str (c_displayName claims).
Proof.
  intros st' id.
  destruct (CreateFacts.create_user_run settings r edit_url username_algo claims st Hname Hfree
              (CreateFacts.uid_conflict_unheld _ _ Huid (mkProfile _ _ (c_uid claims) _ _ _)
                 eq_refl))
    as [db2 [st0 [Hrun [Hu2 [Hp2 [Hu4 [Hpr4 [Hprod4 Hl4]]]]]]]].
  subst st'. rewrite Hrun. cbn [snd]. split.
  - rewrite (FxaClaims.user_by_id_users _ _ _ Hu4).
    unfold user_by_id, products_add_db, products_clear_db, with_links. cbn [db_users].
    rewrite FxaClaims.save_profile_db_users, Hu2.
    apply (FxaClaims.find_app_none _ (mkUser id _ _ _ _ _)), CreateFacts.fresh_user_id_unused.
  - eexists. split; [rewrite (CreateFacts.profile_of_profiles _ _ _ Hpr4);
      exact (CreateFacts.profile_of_save db2 (mkProfile id _ _ _ _ _))|].
    split; reflexivity.
Qed.

(** [create_user] rejects a computed username that is empty with
    [ValueError], and one that a stored user already has with
    [IntegrityError]; in both cases nothing is written and the session
    and messages are untouched. *)
Theorem create_user_username_rejected (settings : Settings) (req : option Request)
    (edit_url : string) (username_algo : string -> string) (claims : Claims) (st : State) :
  (String.eqb (username_algo (c_email claims)) "" = true ->
   create_user settings req edit_url username_algo claims st = (Raise ValueError, st)) /\
  (String.eqb (username_algo (c_email claims)) "" = false ->
   existsb (fun v => String.eqb (username v) (username_algo (c_email claims)))
     (db_users (st_db st)) = true ->
   create_user settings req edit_url username_algo claims st = (Raise IntegrityError, st)).
Proof.
  pose proof (CreateFacts.create_user_rejects settings req edit_url username_algo claims st)
    as R. cbv zeta in R. destruct R as [R1 [R2 _]]. split; assumption.
Qed.

(** When another user's profile already holds the claimed UID (and the
    computed username is usable), [create_user] raises [IntegrityError]
    at the profile save, after the new user row has been stored: that
    row stays. *)
Theorem create_user_uid_taken (settings : Settings) (req : option Request)
    (edit_url : string) (username_algo : string -> string) (claims : Claims) (st : State)
    (q : Profile)
    (Hname : String.eqb (username_algo (c_email claims)) "" = false)
    (Hfree : existsb (fun v => String.eqb (username v) (username_algo (c_email claims)))
               (db_users (st_db st)) = false)
    (Hq : In q (db_profiles (st_db st)))
    (Hqu : prof_user q <> fresh_user_id (st_db st))
    (Hsome : c_uid claims <> None)
    (Hheld : fxa_uid q = c_uid claims) :
  let out := create_user settings req edit_url username_algo claims st in
  fst out = Raise IntegrityError /\
  user_by_id (st_db (snd out)) (fresh_user_id (st_db st)) =
    Some (mkUser (fresh_user_id (st_db st)) (username_algo (c_email claims))
            (normalize_email (c_email claims)) "!" None false).
Proof.
  pose proof (CreateFacts.create_user_rejects settings req edit_url username_algo claims st)
    as R. cbv zeta in R. destruct R as [_ [_ R3]]. apply (R3 Hname Hfree).
  unfold uid_conflict. cbn [fxa_uid prof_user].
  destruct (c_uid claims) as [x|]; [|contradiction].
  apply existsb_exists. exists q. split; [exact Hq|].
  apply andb_true_iff. split.
  - apply negb_true_iff, Nat.eqb_neq. exact Hqu.
  - rewrite Hheld. apply FxaClaims.option_string_eqb_refl.
Qed.

(** [update_user] changes no other user's records: for every id other
    than the user's, the stored user, the profile and the linked
    products are what they were, whatever the outcome. *)
Theorem update_user_keeps_others (req : option Request) (edit_url : string) (user : User)
    (claims : Claims)
    (st : State) (id : nat) :
  id <> user_id user ->
  let st' := snd (update_user req edit_url user claims st) in
  user_by_id (st_db st') id = user_by_id (st_db st) id /\
  profile_of (st_db st') id = profile_of (st_db st) id /\
  linked_products (st_db st') id = linked_products (st_db st) id.
Proof.
  intros Hne st'. subst st'.
  destruct (update_user_shape req edit_url user claims st)
    as [[_ H]|[p [user0 [changed [Hp [Hid H]]]]]].
  - rewrite H. auto.
  - apply profile_of_key in Hp. rewrite H.
    destruct (is_fxa_migrated p);
      (match goal with |- context [update_user_finish ?c ?u ?q ?ch ?s] =>
         destruct (finish_others c u q ch s id) as [F1 [F2 F3]]; [cbn; congruence|congruence|]
       end);
      cbn [st_db] in F1, F2, F3; auto.
Qed.

(** After a successful [update_user], the stored profile of the user is
    migrated; it keeps its UID if it was migrated already and takes the
    claimed UID otherwise; its avatar is the claims' avatar (empty when
    missing); its name is kept unless it was empty, in which case it is
    the claims' display name; its locale is unchanged. *)
Theorem update_user_profile_refresh (req : option Request) (edit_url : string)
    (user u : User) (claims : Claims) (st st' : State) (p : Profile) :
  profile_of (st_db st) (user_id user) = Some p ->
  update_user req edit_url user claims st = (Ok (Some u), st') ->
  profile_of (st_db st') (user_id user) =
    Some (mkProfile (user_id user) true
            (if is_fxa_migrated p then fxa_uid p else c_uid claims)
            (get_str (c_avatar claims))
            (if String.eqb (name p) "" then get_str (c_displayName claims) else name p)
            (locale p)).
Proof.
  intros Hp Hrun.
  exact (proj1 (update_user_success_run req edit_url user u claims st st' p Hp Hrun)).
Qed.

(** A successful [update_user] of a profile not yet migrated points the
    session's [oidc_login_next] at the profile edit page and queues the
    info message ["fxa_notification_updated"]; for a migrated profile it
    leaves [oidc_login_next] and the messages as they were. The
    [is_contributor] flag is never changed. *)
Theorem update_user_migration_session (req : option Request) (edit_url : string)
    (user u : User) (claims : Claims) (st st' : State) (p : Profile) :
  profile_of (st_db st) (user_id user) = Some p ->
  update_user req edit_url user claims st = (Ok (Some u), st') ->
  oidc_login_next (st_session st') =
    (if is_fxa_migrated p then oidc_login_next (st_session st) else Some edit_url) /\
  is_contributor (st_session st') = is_contributor (st_session st) /\
  st_messages st' =
    st_messages st ++ (if is_fxa_migrated p then [] else [(Info, "fxa_notification_updated")]).
Proof.
  intros Hp Hrun.
  exact (proj2 (update_user_success_run req edit_url user u claims st st' p Hp Hrun)).
Qed.

(** A user without a profile makes [update_user] raise
    [RelatedObjectDoesNotExist] at [user.profile], before any change. *)
Theorem update_user_no_profile (req : option Request) (edit_url : string) (user : User)
    (claims : Claims) (st : State) :
  profile_of (st_db st) (user_id user) = None ->
  update_user req edit_url user claims st = (Raise RelatedObjectDoesNotExist, st).
Proof.
  intros Hp. unfold update_user, bind at 1, user_profile. rewrite Hp. reflexivity.
Qed.

(** Without a subscription endpoint (unset or empty), [get_userinfo]
    returns the base user info and changes nothing: no request, no log. *)
Theorem get_userinfo_unconfigured (settings : Settings)
    (base_get_userinfo : string -> string -> json -> dict)
    (http_get : string -> list (string * string) -> bool -> HttpResponse)
    (access_token id_token : string) (payload : json) (st : State) :
  FXA_OP_SUBSCRIPTION_ENDPOINT settings = None \/ FXA_OP_SUBSCRIPTION_ENDPOINT settings = Some "" ->
  get_userinfo settings base_get_userinfo http_get access_token id_token payload st =
  (Ok (base_get_userinfo access_token id_token payload), st).
Proof.
  intros He. unfold get_userinfo. destruct He as [He|He]; rewrite He; reflexivity.
Qed.

(** When the subscription endpoint answers with a status that is not an
    HTTP error but the body is not a JSON object, [get_userinfo] raises:
    [ValueError] when the body is not JSON, [AttributeError] when it is
    JSON of another kind. Only transport and status errors are caught.
    The request is recorded and nothing is logged. *)
Theorem get_userinfo_unusable_body (settings : Settings)
    (base_get_userinfo : string -> string -> json -> dict)
    (http_get : string -> list (string * string) -> bool -> HttpResponse)
    (access_token id_token : string) (payload : json) (st : State) (url : string)
    (status : Z) (body : option json) :
  FXA_OP_SUBSCRIPTION_ENDPOINT settings = Some url -> url <> "" ->
  let headers := [("Authorization", "Bearer " ++ access_token)%string] in
  let verify := OIDC_VERIFY_SSL settings in
  http_get url headers verify = HttpResponseOf status body ->
  ~ (400 <= status < 600) ->
  (forall kv, body <> Some (JObj kv)) ->
  let out := get_userinfo settings base_get_userinfo http_get access_token id_token payload st in
  fst out = Raise (match body with None => ValueError | Some _ => AttributeError end) /\
  st_log (snd out) = st_log st /\
  st_http (snd out) = st_http st ++ [(url, headers, verify)].
Proof.
  intros He Hne headers verify Hg Hs Hb out. subst out.
  unfold get_userinfo. rewrite He.
  destruct url as [|c rest]; [contradiction|].
  cbn beta iota zeta. fold headers verify.
  unfold bind at 1, record_http, modify. cbn beta iota. rewrite Hg.
  replace ((400 <=? status) && (status <? 600)) with false by lia.
  destruct body as [[]|]; try (exfalso; eapply Hb; reflexivity); repeat split.
Qed.

End FxaExtras.

Lemma create_user_keeps_others_witness :
  let st' := snd (create_user Sample.settings (Some Sample.request) "/users/edit" (fun e => e)
                    Sample.claims_fresh Sample.state) in
  user_by_id (st_db st') 1 = user_by_id (st_db Sample.state) 1 /\
  profile_of (st_db st') 1 = profile_of (st_db Sample.state) 1 /\
  linked_products (st_db st') 1 = linked_products (st_db Sample.state) 1.
Proof.
  apply (FxaExtras.create_user_keeps_others Sample.settings (Some Sample.request) "/users/edit"
           (fun e => e) Sample.claims_fresh Sample.state 1%nat).
  vm_compute. discriminate.
Defined.

Lemma update_user_keeps_others_witness :
  let st' := snd (update_user (Some Sample.request) "/users/edit" Sample.bob
                    Sample.claims_fresh Sample.state) in
  user_by_id (st_db st') 2 = user_by_id (st_db Sample.state) 2 /\
  profile_of (st_db st') 2 = profile_of (st_db Sample.state) 2 /\
  linked_products (st_db st') 2 = linked_products (st_db Sample.state) 2.
Proof.
  apply (FxaExtras.update_user_keeps_others (Some Sample.request) "/users/edit" Sample.bob
           Sample.claims_fresh Sample.state 2%nat).
  vm_compute. discriminate.
Defined.

Lemma update_user_profile_refresh_witness :
  let st' := snd (update_user (Some Sample.request) "/users/edit" Sample.bob
                    Sample.claims_fresh Sample.state) in
  profile_of (st_db st') 1 =
    Some (mkProfile 1 true (Some "uidY") "https://avatar" "Bob" "en-US").
Proof.
  intros st'.
  assert (Hrun : update_user (Some Sample.request) "/users/edit" Sample.bob Sample.claims_fresh
                   Sample.state = (Ok (Some Sample.bob_updated), st')) by (vm_compute; reflexivity).
  exact (FxaExtras.update_user_profile_refresh (Some Sample.request) "/users/edit" Sample.bob
           Sample.bob_updated Sample.claims_fresh Sample.state st' Sample.bob_profile eq_refl Hrun).
Defined.

Lemma update_user_migration_session_witness :
  let st' := snd (update_user (Some Sample.request) "/users/edit" Sample.bob
                    Sample.claims_fresh Sample.state) in
  oidc_login_next (st_session st') = Some "/users/edit" /\
  is_contributor (st_session st') = Some true /\
  st_messages st' = [(Info, "fxa_notification_updated")].
Proof.
  intros st'.
  assert (Hrun : update_user (Some Sample.request) "/users/edit" Sample.bob Sample.claims_fresh
                   Sample.state = (Ok (Some Sample.bob_updated), st')) by (vm_compute; reflexivity).
  exact (FxaExtras.update_user_migration_session (Some Sample.request) "/users/edit" Sample.bob
           Sample.bob_updated Sample.claims_fresh Sample.state st' Sample.bob_profile eq_refl Hrun).
Defined.

Lemma update_user_no_profile_witness :
  update_user (Some Sample.request) "/users/edit" Sample.zed Sample.claims_fresh Sample.state =
  (Raise RelatedObjectDoesNotExist, Sample.state).
Proof.
  apply FxaExtras.update_user_no_profile. vm_compute. reflexivity.
Defined.

Lemma get_userinfo_unconfigured_witness :
  get_userinfo Sample.settings_no_endpoint Sample.base_userinfo Sample.http_ok "tok" "idt" JNull
    Sample.state = (Ok (Sample.base_userinfo "tok" "idt" JNull), Sample.state).
Proof.
  apply FxaExtras.get_userinfo_unconfigured. left. reflexivity.
Defined.

Lemma get_userinfo_unusable_body_witness :
  let out := get_userinfo Sample.settings Sample.base_userinfo Sample.http_list_body
               "tok" "idt" JNull Sample.state in
  fst out = Raise AttributeError /\ st_log (snd out) = [] /\
  st_http (snd out) = [("https://subscriptions.example/v1",
                        [("Authorization", "Bearer tok")], true)].
Proof.
  refine (FxaExtras.get_userinfo_unusable_body Sample.settings Sample.base_userinfo
            Sample.http_list_body "tok" "idt" JNull Sample.state
            "https://subscriptions.example/v1" 200
            (Some (JArr [JStr "firefox"])) eq_refl _ eq_refl _ _).
  - discriminate.
  - lia.
  - intros kv. discriminate.
Defined.

Lemma create_user_session_effects_witness :
  let out := create_user Sample.settings (Some Sample.request) "/users/edit" (fun e => e)
               Sample.claims_fresh Sample.state in
  fst out = Ok (mkUser (fresh_user_id (st_db Sample.state)) "bob.new@example.com"
                  (normalize_email (c_email Sample.claims_fresh)) "!" None false) /\
  oidc_login_next (st_session (snd out)) = Some "/users/edit" /\
  is_contributor (st_session (snd out)) =
    match is_contributor (st_session Sample.state) with Some true => None | c => c end /\
  st_messages (snd out) = st_messages Sample.state ++ [(Info, "fxa_notification_created")] /\
  st_log (snd out) = st_log Sample.state /\ st_http (snd out) = st_http Sample.state.
Proof.
  apply (FxaExtras.create_user_session_effects Sample.settings Sample.request "/users/edit"
           (fun e => e) Sample.claims_fresh Sample.state).
  - reflexivity.
  - reflexivity.
  - intros q Hq. cbn in Hq. right.
    destruct Hq as [<-|[<-|[]]]; discriminate.
Defined.

Lemma create_user_without_request_witness :
  let (res, st') := create_user Sample.settings None "/users/edit" (fun e => e)
                      Sample.claims_fresh Sample.state in
  let id := fresh_user_id (st_db Sample.state) in
  res = Raise AttributeError /\
  user_by_id (st_db st') id =
    Some (mkUser id "bob.new@example.com" (normalize_email (c_email Sample.claims_fresh))
            "!" None false) /\
  (exists p, profile_of (st_db st') id = Some p /\ is_fxa_migrated p = true /\
             fxa_uid p = c_uid Sample.claims_fresh) /\
  st_session st' = st_session Sample.state /\ st_messages st' = st_messages Sample.state.
Proof.
  apply (FxaExtras.create_user_without_request Sample.settings "/users/edit"
           (fun e => e) Sample.claims_fresh Sample.state).
  - reflexivity.
  - reflexivity.
  - intros q Hq. cbn in Hq. right.
    destruct Hq as [<-|[<-|[]]]; discriminate.
Defined.

Lemma create_user_profile_fields_witness :
  let st' := snd (create_user Sample.settings (Some Sample.request) "/users/edit" (fun e => e)
                    Sample.claims_fresh Sample.state) in
  let id := fresh_user_id (st_db Sample.state) in
  user_by_id (st_db st') id =
    Some (mkUser id "bob.new@example.com" (normalize_email (c_email Sample.claims_fresh))
            "!" None false) /\
  exists p, profile_of (st_db st') id = Some p /\
            fxa_avatar p = get_str (c_avatar Sample.claims_fresh) /\
            name p = get_str (c_displayName Sample.claims_fresh).
Proof.
  apply (FxaExtras.create_user_profile_fields Sample.settings Sample.request "/users/edit"
           (fun e => e) Sample.claims_fresh Sample.state).
  - reflexivity.
  - reflexivity.
  - intros q Hq. cbn in Hq. right.
    destruct Hq as [<-|[<-|[]]]; discriminate.
Defined.

Lemma create_user_username_rejected_witness :
  create_user Sample.settings (Some Sample.request) "/users/edit" (fun _ => "")
    Sample.claims_fresh Sample.state = (Raise ValueError, Sample.state) /\
  create_user Sample.settings (Some Sample.request) "/users/edit" (fun e => e)
    Sample.claims_ann_old Sample.state_ann = (Raise IntegrityError, Sample.state_ann).
Proof.
  split.
  - apply (FxaExtras.create_user_username_rejected Sample.settings (Some Sample.request)
             "/users/edit" (fun _ => "") Sample.claims_fresh Sample.state).
    reflexivity.
  - apply (FxaExtras.create_user_username_rejected Sample.settings (Some Sample.request)
             "/users/edit" (fun e => e) Sample.claims_ann_old Sample.state_ann).
    + reflexivity.
    + reflexivity.
Defined.

Lemma create_user_uid_taken_witness :
  let out := create_user Sample.settings (Some Sample.request) "/users/edit" (fun e => e)
               Sample.claims_uidX Sample.state in
  fst out = Raise IntegrityError /\
  user_by_id (st_db (snd out)) (fresh_user_id (st_db Sample.state)) =
    Some (mkUser (fresh_user_id (st_db Sample.state)) "bob.new@example.com"
            (normalize_email (c_email Sample.claims_uidX)) "!" None false).
Proof.
  apply (FxaExtras.create_user_uid_taken Sample.settings (Some Sample.request) "/users/edit"
           (fun e => e) Sample.claims_uidX Sample.state Sample.eve_profile).
  - reflexivity.
  - reflexivity.
  - right. left. reflexivity.
  - vm_compute. intros H. discriminate H.
  - discriminate.
  - reflexivity.
Defined.
